(** * ad_data_lake: payload normalisation, request retry, batch execution
      and hierarchical cloning

    A shallow embedding of
      - [src/utils/api_helpers.py]   (sanitize_payload, create_ad_object,
                                      make_api_request),
      - [pages/1_Campaign_Cloner.py] (normalize_input_value, the payload
                                      builders, create_campaign_from_template),
      - [src/main_extractor.py]      (chunk_list, execute_batch_requests).

    Python values are the JSON-shaped ones the payloads are made of: None,
    bool, int, float, str, list and dict (a [gmap] keyed by strings).  A float
    is taken as the rational number it denotes; non-finite floats, and
    integers beyond the range of a double, are outside the model.  Strings
    are byte strings, with Python's character classes restricted to ASCII.

    Effects are explicit.  The remote platform is a state that every call
    transforms; a callable returns or raises ([call_result]); the functions
    that can raise return a [result]; the cloner also returns the list of
    create calls it issued, and the batch orchestrator the lines it printed.
    The clock that [sanitize_payload] reads is an argument.  What the code
    writes to the Streamlit page, and how long it sleeps between batch
    rounds, is left out; of the sleeps of [make_api_request] the part that
    is not random is kept. *)

From Stdlib Require Import ZArith QArith Qround Qminmax Qabs String Ascii List.
From stdpp Require Import gmap strings list fin_maps.

Set Warnings "-register-all".
Open Scope string_scope.

(** ** Python string primitives *)

Module PyStr.

(** [str.isspace] on ASCII: tab .. carriage return, the four separators
    0x1c .. 0x1f and the blank. *)
Definition is_space (a : ascii) : bool :=
  let n := nat_of_ascii a in
  ((9 <=? n)%nat && (n <=? 13)%nat) || ((28 <=? n)%nat && (n <=? 32)%nat).

Fixpoint lstrip (s : string) : string :=
  match s with
  | String a r => if is_space a then lstrip r else s
  | EmptyString => EmptyString
  end.

(** [rstrip] keeps a character when it is not blank or when something
    survives to its right. *)
Fixpoint rstrip (s : string) : string :=
  match s with
  | String a r =>
      match rstrip r with
      | EmptyString => if is_space a then EmptyString else String a EmptyString
      | r' => String a r'
      end
  | EmptyString => EmptyString
  end.

Definition strip (s : string) : string := rstrip (lstrip s).

Definition is_empty (s : string) : bool :=
  match s with EmptyString => true | _ => false end.

(** [s.split(sep)] for a one-character separator: never an empty list. *)
Fixpoint split (sep : ascii) (s : string) : list string :=
  match s with
  | EmptyString => [EmptyString]
  | String a r =>
      if Ascii.eqb a sep then EmptyString :: split sep r
      else match split sep r with
           | x :: xs => String a x :: xs
           | [] => [String a EmptyString]
           end
  end.

Definition lower_ascii (a : ascii) : ascii :=
  let n := nat_of_ascii a in
  if ((65 <=? n)%nat && (n <=? 90)%nat) then ascii_of_nat (n + 32) else a.

Fixpoint lower (s : string) : string :=
  match s with
  | String a r => String (lower_ascii a) (lower r)
  | EmptyString => EmptyString
  end.

Definition is_digit (a : ascii) : bool :=
  let n := nat_of_ascii a in (48 <=? n)%nat && (n <=? 57)%nat.

Fixpoint all_digits (s : string) : bool :=
  match s with
  | String a r => is_digit a && all_digits r
  | EmptyString => true
  end.

(** [str.isdigit]: at least one character, all of them digits. *)
Definition isdigit (s : string) : bool := negb (is_empty s) && all_digits s.

Fixpoint digits_value (acc : Z) (s : string) : Z :=
  match s with
  | String a r => digits_value (10 * acc + Z.of_nat (nat_of_ascii a - 48)) r
  | EmptyString => acc
  end.

(** [int(s)] on a string of digits. *)
Definition int_of_digits (s : string) : Z := digits_value 0 s.

Definition startswith (p s : string) : bool := String.prefix p s.

Definition endswith (p s : string) : bool :=
  let ls := String.length s in
  let lp := String.length p in
  (lp <=? ls)%nat && String.eqb (String.substring (ls - lp) lp s) p.

(** [needle in s] *)
Fixpoint contains (needle s : string) : bool :=
  String.prefix needle s ||
  match s with
  | String _ r => contains needle r
  | EmptyString => false
  end.

Fixpoint digit_string (fuel : nat) (n : N) (acc : string) : string :=
  match fuel with
  | O => acc
  | S fuel' =>
      let d := String (ascii_of_N (48 + N.modulo n 10)) acc in
      if (n <? 10)%N then d else digit_string fuel' (N.div n 10) d
  end.

(** [str(n)] for an integer. *)
Definition str_of_Z (n : Z) : string :=
  match n with
  | Z0 => "0"
  | Zpos p => digit_string (S (Pos.to_nat p)) (Npos p) EmptyString
  | Zneg p => String "-" (digit_string (S (Pos.to_nat p)) (Npos p) EmptyString)
  end.

End PyStr.

(** ** Python values *)

Inductive value : Type :=
| VNone
| VBool (b : bool)
| VInt (n : Z)
| VFloat (q : Q)
| VStr (s : string)
| VList (l : list value)
| VDict (m : gmap string value).

Abbreviation pydict := (gmap string value).

Definition is_dict (v : value) : bool :=
  match v with VDict _ => true | _ => false end.

(** Python truthiness, [bool(v)]. *)
Definition truthy (v : value) : bool :=
  match v with
  | VNone => false
  | VBool b => b
  | VInt n => negb (n =? 0)%Z
  | VFloat q => negb (Qeq_bool q 0%Q)
  | VStr s => negb (PyStr.is_empty s)
  | VList l => match l with [] => false | _ => true end
  | VDict m => negb (bool_decide (m = ∅))
  end.

(** [a or b] *)
Definition py_or (a b : value) : value := if truthy a then a else b.

(** [d.get(k)] with the default [None]. *)
Definition dict_get (d : pydict) (k : string) : value := default VNone (d !! k).

(** [k in d] *)
Definition has_key (d : pydict) (k : string) : bool :=
  match d !! k with Some _ => true | None => false end.

(** [float(v)] for a number ([bool] is a subclass of [int]); [None] stands
    for the TypeError raised on the other non-string values. *)
Definition number_to_Q (v : value) : option Q :=
  match v with
  | VBool b => Some (if b then 1%Q else 0%Q)
  | VInt n => Some (inject_Z n)
  | VFloat q => Some q
  | _ => None
  end.

(** [round(q)]: to the nearest integer, ties to the even one. *)
Definition py_round (q : Q) : Z :=
  let f := Qfloor q in
  let r := (q - inject_Z f)%Q in
  match (r ?= 1 # 2)%Q with
  | Lt => f
  | Gt => (f + 1)%Z
  | Eq => if Z.even f then f else (f + 1)%Z
  end.

(** [v == 0] for the values of the model: [0], [0.0] and [False]. *)
Definition eq_zero (v : value) : bool :=
  match v with
  | VInt n => (n =? 0)%Z
  | VFloat q => Qeq_bool q 0%Q
  | VBool b => negb b
  | _ => false
  end.

(** [v == s] for a string literal [s] *)
Definition eq_str (v : value) (s : string) : bool :=
  match v with VStr t => String.eqb t s | _ => false end.

Definition is_none_or_empty_str (v : value) : bool :=
  match v with
  | VNone => true
  | VStr s => PyStr.is_empty s
  | _ => false
  end.

(** ** The Python library functions the code calls

    [float(str)], [json.loads], [str(v)] and the [datetime] functions are
    taken as they come: every general statement below holds for any
    behaviour of theirs. *)

Class PyLib := {
  (** [float(s)], [None] when it raises ValueError *)
  py_float : string -> option Q;
  (** [json.loads(s)], [None] when it raises JSONDecodeError *)
  json_loads : string -> option value;
  (** [str(v)] for a value that is not a string *)
  py_repr : value -> string;
  datetime : Type;
  (** [datetime.fromtimestamp(q, tz=utc)], [None] when it raises *)
  dt_fromtimestamp : Q -> option datetime;
  (** [datetime.fromisoformat(s)], [None] on ValueError *)
  dt_fromisoformat : string -> option datetime;
  (** [datetime.strptime(s, fmt)], [None] on ValueError *)
  dt_strptime : string -> string -> option datetime;
  (** [dt if dt.tzinfo else dt.replace(tzinfo=utc)] *)
  dt_assume_utc : datetime -> datetime;
  (** [dt.replace(microsecond=0).isoformat()] *)
  dt_isoformat_seconds : datetime -> string;
  (** [a >= b] *)
  dt_ge : datetime -> datetime -> bool
}.

(** [str(v)] *)
Definition py_str `{PyLib} (v : value) : string :=
  match v with VStr s => s | _ => py_repr v end.

(** ** src/utils/api_helpers.py: the structural sanitizer *)

Section Sanitizer.
Context `{PyLib}.

(** [_parse_datetime_value] *)
Definition _parse_datetime_value (v : value) : option datetime :=
  match v with
  | VBool _ | VInt _ | VFloat _ =>
      q ← number_to_Q v; dt_fromtimestamp q
  | VStr s =>
      let stripped := PyStr.strip s in
      if PyStr.is_empty stripped then None
      else
        let n := String.length stripped in
        let normalized :=
          if PyStr.endswith "Z" stripped
          then String.substring 0 (n - 1) stripped ++ "+00:00"
          else if (5 <=? n)%nat
                  && (match String.get (n - 5) stripped with
                      | Some c => Ascii.eqb c "+" || Ascii.eqb c "-"
                      | None => false
                      end)
                  && negb (match String.get (n - 3) stripped with
                           | Some c => Ascii.eqb c ":"
                           | None => false
                           end)
          then String.substring 0 (n - 2) stripped ++ ":"
               ++ String.substring (n - 2) 2 stripped
          else stripped in
        match dt_fromisoformat normalized with
        | Some parsed => Some (dt_assume_utc parsed)
        | None =>
            match dt_strptime stripped "%Y-%m-%d %H:%M:%S" with
            | Some parsed => Some (dt_assume_utc parsed)
            | None =>
                match dt_strptime stripped "%Y-%m-%dT%H:%M:%S" with
                | Some parsed => Some (dt_assume_utc parsed)
                | None => None
                end
            end
        end
  | _ => None
  end.

(** [_isoformat_datetime] *)
Definition _isoformat_datetime (dt : datetime) : string :=
  dt_isoformat_seconds (dt_assume_utc dt).

(** [_parse_positive_amount]: the amount is tested with [amount <= 0] and
    rounded afterwards. *)
Definition _parse_positive_amount (v : value) : option Z :=
  amount ← match v with
           | VStr s =>
               let trimmed := PyStr.strip s in
               if PyStr.is_empty trimmed then None else py_float trimmed
           | _ => number_to_Q v
           end;
  if Qle_bool amount 0 then None else Some (py_round amount).

Definition nonempty_stripped (l : list string) : list string :=
  filter (fun s => PyStr.is_empty s = false) (PyStr.strip <$> l).

(** [_normalize_string_collection]; [None] is the function's own [None]. *)
Definition _normalize_string_collection (v : value) : option (list string) :=
  match v with
  | VNone => Some []
  | VStr s =>
      let trimmed := PyStr.strip s in
      if PyStr.is_empty trimmed || String.eqb trimmed "[]" then Some []
      else
        match json_loads trimmed with
        | None => Some (nonempty_stripped (PyStr.split "," trimmed))
        | Some (VList items) => Some (nonempty_stripped (py_str <$> items))
        | Some VNone => Some []
        | Some parsed => Some (nonempty_stripped [py_str parsed])
        end
  | VList items =>
      Some (omap (fun item =>
                    match item with
                    | VNone => None
                    | VList [] => None
                    | VStr s =>
                        let t := PyStr.strip s in
                        if PyStr.is_empty t then None else Some t
                    | _ => Some (py_str item)
                    end) items)
  | _ => None
  end.

Definition str_list (l : list string) : value := VList (VStr <$> l).

(** The budget block of [_apply_dict_rules]. *)
Definition rule_budget (values : pydict) : pydict :=
  let daily_budget_present := has_key values "daily_budget" in
  let lifetime_budget_present := has_key values "lifetime_budget" in
  if daily_budget_present || lifetime_budget_present then
    let daily_amount := _parse_positive_amount (dict_get values "daily_budget") in
    let lifetime_amount := _parse_positive_amount (dict_get values "lifetime_budget") in
    match daily_amount, lifetime_amount with
    | Some d, _ => delete "lifetime_budget" (<["daily_budget" := VInt d]> values)
    | None, Some l => delete "daily_budget" (<["lifetime_budget" := VInt l]> values)
    | None, None => delete "lifetime_budget" (delete "daily_budget" values)
    end
  else values.

(** The [spend_cap] block. *)
Definition rule_spend_cap (values : pydict) : pydict :=
  match values !! "spend_cap" with
  | None => values
  | Some v =>
      let spend_cap_value :=
        match v with VStr s => VStr (PyStr.strip s) | _ => v end in
      let dropped :=
        match spend_cap_value with
        | VNone => true
        | VStr s => PyStr.is_empty s || String.eqb s "0"
        | _ => eq_zero spend_cap_value
        end in
      if dropped then delete "spend_cap" values
      else match _parse_positive_amount spend_cap_value with
           | Some cap => <["spend_cap" := VInt cap]> values
           | None => delete "spend_cap" values
           end
  end.

(** The [special_ad_categories] block. *)
Definition rule_categories (depth : nat) (values : pydict) : pydict :=
  if (depth =? 0)%nat || has_key values "special_ad_categories" then
    match _normalize_string_collection (dict_get values "special_ad_categories") with
    | None =>
        if (depth =? 0)%nat then <["special_ad_categories" := VList []]> values
        else delete "special_ad_categories" values
    | Some cats => <["special_ad_categories" := str_list cats]> values
    end
  else values.

Definition brand_safety_fields : list string :=
  [ "brand_safety_content_filter_levels";
    "brand_safety_content_severity_levels";
    "excluded_brand_safety_content_types" ].

Definition rule_string_field (field_name : string) (values : pydict) : pydict :=
  match values !! field_name with
  | None => values
  | Some v =>
      match _normalize_string_collection v with
      | None => delete field_name values
      | Some levels => <[field_name := str_list levels]> values
      end
  end.

Definition rule_brand_safety (values : pydict) : pydict :=
  foldl (fun acc f => rule_string_field f acc) values brand_safety_fields.

(** The [start_time] block: never earlier than [now_utc]. *)
Definition rule_start_time (now_utc : datetime) (values : pydict) : pydict :=
  let start_time_value := dict_get values "start_time" in
  if is_none_or_empty_str start_time_value then delete "start_time" values
  else match _parse_datetime_value start_time_value with
       | Some parsed_start =>
           <["start_time" :=
               VStr (_isoformat_datetime
                       (if dt_ge parsed_start now_utc then parsed_start else now_utc))]>
             values
       | None => delete "start_time" values
       end.

Definition time_fields_of (object_type : string) : list string :=
  if String.eqb object_type "campaign" then ["stop_time"]
  else if String.eqb object_type "adset" then ["end_time"; "stop_time"]
  else ["stop_time"; "end_time"].

Definition rule_time_field (time_field : string) (values : pydict) : pydict :=
  match values !! time_field with
  | None => values
  | Some v =>
      if is_none_or_empty_str v then delete time_field values
      else match _parse_datetime_value v with
           | Some parsed_time => <[time_field := VStr (_isoformat_datetime parsed_time)]> values
           | None => delete time_field values
           end
  end.

Definition rule_time_fields (object_type : string) (values : pydict) : pydict :=
  foldl (fun acc f => rule_time_field f acc) values (time_fields_of object_type).

Definition numeric_exclusions : list string :=
  [ "id"; "account_id"; "campaign_id"; "adset_id"; "creative_id"; "parent_id";
    "existing_creative_id" ].

(** One turn of the closing loop over [values.items()]. *)
Definition coerce_numeric (key : string) (v : value) : value :=
  match v with
  | VStr s =>
      let stripped := PyStr.strip s in
      if PyStr.is_empty stripped then v
      else if bool_decide (key ∈ numeric_exclusions)
              || PyStr.endswith "_id" key || PyStr.endswith "_ids" key then v
      else if PyStr.isdigit stripped then VInt (PyStr.int_of_digits stripped)
      else match py_float stripped with
           | Some numeric_value => VFloat numeric_value
           | None => v
           end
  | _ => v
  end.

Definition rule_numeric (values : pydict) : pydict :=
  map_imap (fun key v => Some (coerce_numeric key v)) values.

(** [_apply_dict_rules] *)
Definition _apply_dict_rules (now_utc : datetime) (object_type : string)
    (values : pydict) (depth : nat) : pydict :=
  if bool_decide (values = ∅) then values
  else
    rule_numeric
      (rule_time_fields object_type
         (rule_start_time now_utc
            (rule_brand_safety
               (rule_categories depth
                  (rule_spend_cap
                     (rule_budget values)))))).

(** [_sanitize] *)
Fixpoint _sanitize (now_utc : datetime) (object_type : string)
    (v : value) (depth : nat) : value :=
  match v with
  | VDict m =>
      VDict (_apply_dict_rules now_utc object_type
               ((fun sub_value => _sanitize now_utc object_type sub_value (S depth)) <$> m)
               depth)
  | VList items =>
      VList ((fun item => _sanitize now_utc object_type item (S depth)) <$> items)
  | _ => v
  end.

(** [sanitize_payload(data, object_type)], with the clock reading [now_utc]
    made an argument. *)
Definition sanitize_payload (now_utc : datetime) (data : value)
    (object_type : string) : value :=
  let object_type := PyStr.lower object_type in
  match data with
  | VDict _ => _sanitize now_utc object_type data 0
  | VList items => VList ((fun item => _sanitize now_utc object_type item 0) <$> items)
  | _ => data
  end.

End Sanitizer.

(** ** src/utils/api_helpers.py: the retrying request executor *)

(** What one invocation of a callable does: it returns (possibly Python's
    [None]), raises FacebookRequestError with the code and subcode that
    [_extract_error_code] and [_extract_error_subcode] read off it, or
    raises another Exception. *)
Inductive call_result (A : Type) : Type :=
| Returns (r : option A)
| RaisesFb (error_code error_subcode : option Z)
| RaisesOther.
Arguments Returns {A} r.
Arguments RaisesFb {A} error_code error_subcode.
Arguments RaisesOther {A}.

Definition RATE_LIMIT_ERROR_CODES : list Z := [4; 17; 32; 613; 80004]%Z.
Definition ACCOUNT_RATE_LIMIT_SUBCODES : list Z := [2446079; 2446094; 2446095]%Z.
Definition ACCOUNT_RATE_LIMIT_BACKOFF_SECONDS : Q := 600.

(** [x in codes] for an Optional[int] *)
Definition code_in (x : option Z) (codes : list Z) : bool :=
  match x with
  | Some c => bool_decide (c ∈ codes)
  | None => false
  end.

Definition is_rate_limited (error_code error_subcode : option Z) : bool :=
  code_in error_code RATE_LIMIT_ERROR_CODES
  || code_in error_subcode ACCOUNT_RATE_LIMIT_SUBCODES.

(** The deterministic part of the sleep before the next attempt; the
    jitter [random.uniform(0, 0.5)] is added to it by the code. *)
Definition backoff_time (initial_backoff : Q) (attempt : Z)
    (error_subcode : option Z) : Q :=
  let b := (initial_backoff * 2 ^ attempt)%Q in
  if code_in error_subcode ACCOUNT_RATE_LIMIT_SUBCODES
  then Qmax b ACCOUNT_RATE_LIMIT_BACKOFF_SECONDS
  else b.

(** What [make_api_request] did: its return value ([None] is the null
    sentinel), how often it invoked the callable, the sleeps it took and
    the state it left the remote side in. *)
Record request_run (W A : Type) : Type := {
  run_result : option A;
  run_calls : nat;
  run_sleeps : list Q;
  run_world : W
}.
Arguments run_result {W A} _.
Arguments run_calls {W A} _.
Arguments run_sleeps {W A} _.
Arguments run_world {W A} _.

Section RequestExecutor.
Context {W A : Type}.
Variable api_call_function : W -> call_result A * W.

(** The [while attempt < max_retries] loop; [fuel] bounds the turns that
    are left, and [make_api_request] starts it with all of them. *)
Fixpoint make_api_request_loop (fuel : nat) (max_retries : Z) (initial_backoff : Q)
    (attempt : Z) (calls : nat) (sleeps : list Q) (w : W) : request_run W A :=
  match fuel with
  | O => {| run_result := None; run_calls := calls; run_sleeps := sleeps; run_world := w |}
  | S fuel' =>
      if (attempt <? max_retries)%Z then
        match api_call_function w with
        | (Returns r, w') =>
            {| run_result := r; run_calls := S calls; run_sleeps := sleeps; run_world := w' |}
        | (RaisesFb error_code error_subcode, w') =>
            let should_retry :=
              is_rate_limited error_code error_subcode
              && (attempt <? max_retries - 1)%Z in
            if should_retry then
              make_api_request_loop fuel' max_retries initial_backoff (attempt + 1)
                (S calls) (sleeps ++ [backoff_time initial_backoff attempt error_subcode]) w'
            else
              {| run_result := None; run_calls := S calls; run_sleeps := sleeps; run_world := w' |}
        | (RaisesOther, w') =>
            {| run_result := None; run_calls := S calls; run_sleeps := sleeps; run_world := w' |}
        end
      else {| run_result := None; run_calls := calls; run_sleeps := sleeps; run_world := w |}
  end.

(** [make_api_request(api_call_function, max_retries, initial_backoff)] *)
Definition make_api_request (max_retries : Z) (initial_backoff : Q) (w : W)
    : request_run W A :=
  make_api_request_loop (Z.to_nat max_retries) max_retries initial_backoff 0 0 [] w.

End RequestExecutor.

(** ** pages/1_Campaign_Cloner.py: per-field normalisation *)

Definition BUDGET_FIELDS : list string :=
  ["daily_budget"; "lifetime_budget"; "spend_cap"; "bid_amount"].
Definition BOOLEAN_FIELDS : list string := ["is_dynamic_creative"].
Definition JSON_FIELD_HINTS : list string :=
  ["promoted_object"; "targeting"; "attribution_spec"; "special_ad_categories"].
Definition TRUTHY_VALUES : list string := ["true"; "1"; "yes"; "y"].
Definition FALSY_VALUES : list string := ["false"; "0"; "no"; "n"].

Definition str_in (s : string) (l : list string) : bool := bool_decide (s ∈ l).

(** [int(q)]: truncation towards zero. *)
Definition py_trunc (q : Q) : Z :=
  if Qle_bool 0 q then Qfloor q else Qceiling q.

Definition is_number (v : value) : bool :=
  match v with VBool _ | VInt _ | VFloat _ => true | _ => false end.

Definition is_container (v : value) : bool :=
  match v with VDict _ | VList _ => true | _ => false end.

Section FieldNormalizer.
Context `{PyLib}.

(** The budget branch: [field_name in BUDGET_FIELDS]. *)
Definition normalize_budget_value (v : value) : value :=
  match v with
  | VStr s =>
      if PyStr.is_empty s then VNone
      else
        let trimmed := PyStr.strip s in
        if PyStr.is_empty trimmed then VNone
        else match py_float trimmed with
             | Some q => VStr (PyStr.str_of_Z (py_round q))
             | None => VStr trimmed
             end
  | VBool _ | VInt _ | VFloat _ =>
      match number_to_Q v with
      | Some q => VStr (PyStr.str_of_Z (py_round q))
      | None => VStr (py_str v)
      end
  | _ => VStr (py_str v)
  end.

(** The boolean branch. *)
Definition normalize_boolean_value (v : value) : value :=
  match v with
  | VBool _ => v
  | VStr s =>
      let lowered := PyStr.lower (PyStr.strip s) in
      if str_in lowered TRUTHY_VALUES then VBool true
      else if str_in lowered FALSY_VALUES then VBool false
      else VBool (truthy v)
  | _ => VBool (truthy v)
  end.

(** The closing branch for strings. *)
Definition normalize_residual_string (s : string) : value :=
  let trimmed := PyStr.strip s in
  let parsed :=
    if PyStr.startswith "{" trimmed || PyStr.startswith "[" trimmed
    then json_loads trimmed else None in
  match parsed with
  | Some j => j
  | None =>
      if str_in (PyStr.lower trimmed) TRUTHY_VALUES then VBool true
      else if str_in (PyStr.lower trimmed) FALSY_VALUES then VBool false
      else VStr trimmed
  end.

(** [type(original_value)(x)] for a numeric original that is not a bool. *)
Definition cast_like (original_value : value) (q : Q) (as_int : Z) : value :=
  match original_value with
  | VInt _ => VInt as_int
  | _ => VFloat q
  end.

Definition normalize_tail (v : value) : value :=
  match v with
  | VStr s => normalize_residual_string s
  | _ => v
  end.

(** [normalize_input_value(field_name, value, original_value)]; Python's
    [None] result is [VNone]. *)
Definition normalize_input_value (field_name : string) (v original_value : value) : value :=
  match v with
  | VNone => VNone
  | _ =>
    if str_in field_name BUDGET_FIELDS then normalize_budget_value v
    else if str_in field_name BOOLEAN_FIELDS
            || (match original_value with VBool _ => true | _ => false end)
    then normalize_boolean_value v
    else if is_container v then v
    else if is_container original_value then
      match v with
      | VStr s => match json_loads s with
                  | Some j => j
                  | None => original_value
                  end
      | _ => v
      end
    else if str_in field_name JSON_FIELD_HINTS then
      match v with
      | VStr s =>
          let trimmed := PyStr.strip s in
          if PyStr.is_empty trimmed then
            (if String.eqb field_name "special_ad_categories" then VList [] else VNone)
          else match json_loads trimmed with
               | Some j => j
               | None =>
                   if String.eqb field_name "special_ad_categories"
                   then str_list (nonempty_stripped (PyStr.split "," trimmed))
                   else v
               end
      | _ => v
      end
    else if is_number original_value then
      match v with
      | VBool b => cast_like original_value (if b then 1 else 0)%Q (if b then 1 else 0)%Z
      | VInt n => cast_like original_value (inject_Z n) n
      | VFloat q => cast_like original_value q (py_trunc q)
      | VStr s =>
          let trimmed := PyStr.strip s in
          if PyStr.is_empty trimmed then VNone
          else match py_float trimmed with
               | Some numeric => cast_like original_value numeric (py_trunc numeric)
               | None => normalize_tail v
               end
      | _ => normalize_tail v
      end
    else normalize_tail v
  end.

End FieldNormalizer.

(** ** Exceptions that leave the cloner's functions *)

Inductive exn : Type :=
| ValueError (msg : string)
| AttributeError
| TypeError
| RemoteException.

Inductive result (A : Type) : Type :=
| Ok (a : A)
| Raise (e : exn).
Arguments Ok {A} a.
Arguments Raise {A} e.

#[global] Instance result_bind : MBind result := fun A B k m =>
  match m with
  | Ok a => k a
  | Raise e => Raise e
  end.

(** [v.get(...)] on something that has to be a dict. *)
Definition as_dict (v : value) : result pydict :=
  match v with
  | VDict d => Ok d
  | _ => Raise AttributeError
  end.

(** ** pages/1_Campaign_Cloner.py: payload assembly *)

Definition CAMPAIGN_POST_FIELDS : list string :=
  [ "name"; "objective"; "status"; "special_ad_categories"; "buying_type";
    "bid_strategy"; "start_time"; "stop_time"; "daily_budget"; "lifetime_budget";
    "spend_cap"; "promoted_object" ].

Definition ADSET_POST_FIELDS : list string :=
  [ "name"; "campaign_id"; "status"; "daily_budget"; "lifetime_budget";
    "start_time"; "end_time"; "pacing_type"; "bid_strategy"; "bid_amount";
    "billing_event"; "optimization_goal"; "promoted_object"; "targeting";
    "attribution_spec"; "is_dynamic_creative";
    "financial_services_declaration_section" ].

Definition AD_POST_FIELDS : list string := ["name"; "status"; "adset_id"; "creative"].

Definition is_budget_key (field : string) : bool :=
  String.eqb field "daily_budget" || String.eqb field "lifetime_budget".

Section PayloadAssembly.
Context `{PyLib}.

(** The loop the three [sanitize_*_payload] functions share: every field of
    the POST schema that is not skipped, normalised, and kept unless it
    resolves to [None]. *)
Definition collect_fields (fields : list string) (skip : string -> bool)
    (base overrides : pydict) : pydict :=
  foldl (fun payload field =>
           if skip field then payload
           else
             let original_value := dict_get base field in
             let v := default original_value (overrides !! field) in
             match normalize_input_value field v original_value with
             | VNone => payload
             | normalized => <[field := normalized]> payload
             end)
        ∅ fields.

Definition base_of (template : value) : pydict :=
  match template with VDict d => d | _ => ∅ end.

Definition default_status (payload : pydict) : pydict :=
  <["status" := py_or (dict_get payload "status") (VStr "PAUSED")]> payload.

(** [sanitize_campaign_payload] *)
Definition sanitize_campaign_payload (template : value) (overrides : pydict)
    (is_cbo : bool) : pydict :=
  default_status
    (collect_fields CAMPAIGN_POST_FIELDS
       (fun field => is_budget_key field && negb is_cbo)
       (base_of template) overrides).

(** [sanitize_adset_payload]; the overrides come from the user's input map
    and are used with [.get]. *)
Definition sanitize_adset_payload (template overrides : value)
    (new_campaign_id : string) (is_cbo : bool) : result pydict :=
  overrides ← as_dict overrides;
  let payload :=
    collect_fields ADSET_POST_FIELDS
      (fun field => String.eqb field "campaign_id" || (is_budget_key field && is_cbo))
      (base_of template) overrides in
  let payload := <["campaign_id" := VStr new_campaign_id]> payload in
  let payload := default_status payload in
  Ok (if is_cbo then delete "lifetime_budget" (delete "daily_budget" payload)
      else payload).

(** [sanitize_ad_payload] *)
Definition sanitize_ad_payload (template overrides : value)
    (new_adset_id creative_id : string) : result pydict :=
  overrides ← as_dict overrides;
  let payload :=
    collect_fields AD_POST_FIELDS
      (fun field => String.eqb field "creative" || String.eqb field "adset_id")
      (base_of template) overrides in
  let payload := <["adset_id" := VStr new_adset_id]> payload in
  let payload := <["creative" := VDict {["creative_id" := VStr creative_id]}]> payload in
  Ok (default_status payload).

(** [updated[section] = f(dict(updated[section]))] when the section is a dict *)
Definition update_section (section : string) (f : pydict -> pydict)
    (updated : pydict) : pydict :=
  match updated !! section with
  | Some (VDict section_data) => <[section := VDict (f section_data)]> updated
  | _ => updated
  end.

Definition update_sections (sections : list string) (f : pydict -> pydict)
    (updated : pydict) : pydict :=
  foldl (fun acc section => update_section section f acc) updated sections.

(** The nested call-to-action update of the [if link:] block. *)
Definition update_call_to_action (link : value) (section_data : pydict) : pydict :=
  match section_data !! "call_to_action" with
  | Some (VDict call_to_action) =>
      let value_dict :=
        match call_to_action !! "value" with
        | Some (VDict value_dict) =>
            VDict (<["link_url" := link]> (<["link" := link]> value_dict))
        | _ => VDict {["link" := link]}
        end in
      <["call_to_action" := VDict (<["value" := value_dict]> call_to_action)]> section_data
  | _ => section_data
  end.

(** The order-preserving de-duplication of the retailer ids. *)
Definition clean_retailer_ids (retailer_item_ids : list string) : list string :=
  foldl (fun cleaned item =>
           let normalized := PyStr.strip item in
           if negb (PyStr.is_empty normalized) && negb (str_in normalized cleaned)
           then (cleaned ++ [normalized])%list else cleaned)
        [] retailer_item_ids.

Definition apply_asset (key val : value) (updated : pydict) : pydict :=
  let is_image := eq_str key "image_hash" in
  let is_video := eq_str key "video_id" in
  let updated :=
    update_section "link_data"
      (fun link_data =>
         if is_image then delete "video_id" (<["image_hash" := val]> link_data)
         else if is_video then delete "image_hash" (<["video_id" := val]> link_data)
         else link_data) updated in
  let updated :=
    update_section "video_data"
      (fun video_data => if is_video then <["video_id" := val]> video_data else video_data)
      updated in
  update_section "photo_data"
    (fun photo_data => if is_image then <["image_hash" := val]> photo_data else photo_data)
    updated.

(** [update_object_story_spec] *)
Definition update_object_story_spec (story_spec asset_info message headline link : value)
    (retailer_item_ids : list string) : result pydict :=
  let updated := base_of story_spec in
  updated ←
    (if truthy asset_info then
       info ← as_dict asset_info;
       let key := dict_get info "key" in
       let val := dict_get info "value" in
       Ok (if truthy key && truthy val then apply_asset key val updated else updated)
     else Ok updated);
  let updated :=
    if truthy message
    then update_sections ["link_data"; "video_data"; "photo_data"]
           (fun cloned => <["message" := message]> cloned) updated
    else updated in
  let updated :=
    if truthy headline
    then update_section "video_data" (fun video_data => <["title" := headline]> video_data)
           (update_section "link_data"
              (fun link_data => <["name" := headline]> (<["headline" := headline]> link_data))
              updated)
    else updated in
  let updated :=
    if truthy link
    then update_sections ["video_data"; "photo_data"] (update_call_to_action link)
           (update_section "link_data"
              (fun link_data =>
                 update_call_to_action link
                   (<["link_url" := link]> (<["link" := link]> link_data)))
              updated)
    else updated in
  let cleaned_retailer_ids := clean_retailer_ids retailer_item_ids in
  Ok (match cleaned_retailer_ids with
      | _ :: _ =>
          <["retailer_item_ids" := str_list cleaned_retailer_ids]>
            (update_sections ["link_data"; "video_data"; "template_data"]
               (fun section_clone =>
                  <["retailer_item_ids" := str_list cleaned_retailer_ids]> section_clone)
               updated)
      | [] =>
          delete "retailer_item_ids"
            (update_sections ["link_data"; "video_data"; "template_data"]
               (fun section_clone => delete "retailer_item_ids" section_clone)
               updated)
      end).

Definition creative_dropped_fields : list string :=
  [ "id"; "status"; "thumbnail_url"; "image_url"; "effective_object_story_id";
    "asset_feed_spec" ].

(** [payload[k] = v] when [v] is truthy, [payload.pop(k, None)] otherwise *)
Definition set_or_pop (k : string) (v : value) (payload : pydict) : pydict :=
  if truthy v then <[k := v]> payload else delete k payload.

(** [build_creative_payload]: the payload (or [None]) and the asset entry. *)
Definition build_creative_payload (creative_template creative_inputs : value)
    (asset_map : pydict) : result (option pydict * value) :=
  match creative_template with
  | VDict template =>
      let payload := foldl (fun acc field => delete field acc) template creative_dropped_fields in
      inputs ← as_dict creative_inputs;
      let asset_name := dict_get inputs "asset_name" in
      asset_info ←
        (if truthy asset_name then
           match asset_name with
           | VStr name => Ok (dict_get asset_map name)
           | VList _ | VDict _ => Raise TypeError
           | _ => Ok VNone
           end
         else Ok VNone);
      let message := py_or (dict_get inputs "message") (VStr EmptyString) in
      let headline := py_or (dict_get inputs "title") (VStr EmptyString) in
      let link := py_or (dict_get inputs "link") (VStr EmptyString) in
      let retailer_ids_raw := py_or (dict_get inputs "retailer_item_ids") (VStr EmptyString) in
      retailer_ids_list ←
        match retailer_ids_raw with
        | VStr raw =>
            Ok (PyStr.strip <$>
                  filter (fun item => negb (PyStr.is_empty item)
                                      && negb (PyStr.is_empty (PyStr.strip item)) = true)
                         (PyStr.split "," raw))
        | _ => Raise AttributeError
        end;
      let story_spec := dict_get payload "object_story_spec" in
      updated_spec ←
        update_object_story_spec story_spec asset_info message headline link retailer_ids_list;
      let payload := <["object_story_spec" := VDict updated_spec]> payload in
      let payload := set_or_pop "body" message payload in
      let payload := set_or_pop "title" headline payload in
      let payload :=
        match retailer_ids_list with
        | _ :: _ => <["retailer_item_ids" := str_list retailer_ids_list]> payload
        | [] => delete "retailer_item_ids" payload
        end in
      let creative_name := dict_get inputs "name" in
      let payload :=
        if truthy creative_name then <["name" := creative_name]> payload else payload in
      Ok (Some payload, asset_info)
  | _ => Ok (None, VNone)
  end.

End PayloadAssembly.

(** ** The single funnel of the create calls, and the hierarchical cloner *)

Inductive object_kind : Type := KCampaign | KAdSet | KCreative | KAd.

(** One create call as the remote platform saw it. *)
Record call_record : Type := {
  call_kind : object_kind;
  call_params : pydict;
  call_outcome : call_result value
}.

(** The Creation Result *)
Record creation_result : Type := {
  campaign_id : string;
  adset_ids : list string;
  ad_ids : list string
}.

(** How a step of the traversal ends: it goes on, the function executes
    [return None], or an exception leaves it. *)
Inductive flow (A : Type) : Type :=
| Next (a : A)
| ReturnNone
| Raised (e : exn).
Arguments Next {A} a.
Arguments ReturnNone {A}.
Arguments Raised {A} e.

Section Cloner.
Context `{PyLib}.
(** The remote platform: a state [W], the create endpoints of the account,
    and the clock that [sanitize_payload] reads. *)
Context {W : Type}.
Variable api_create : object_kind -> pydict -> W -> call_result value * W.
Variable now_of : W -> datetime.

(** State threaded through a run: the platform and the calls issued so far. *)
Definition run_state : Type := W * list call_record.

(** [label.split(':', 1)[0].strip().lower()] *)
Definition object_type_of_label (object_type_for_log : string) : string :=
  let object_label :=
    if PyStr.is_empty object_type_for_log then "Ad Object" else object_type_for_log in
  PyStr.lower (PyStr.strip (hd EmptyString (PyStr.split ":" object_label))).

(** [create_ad_object]: the payload is sanitized once more, in place, so the
    creation function sends the cleaned payload; a platform error and an
    empty answer both give [None]; any other exception propagates. *)
Definition create_ad_object (kind : object_kind) (payload : pydict)
    (object_type_for_log : string) (st : run_state) : result value * run_state :=
  let '(w, calls) := st in
  let object_type := object_type_of_label object_type_for_log in
  let clean_payload := base_of (sanitize_payload (now_of w) (VDict payload) object_type) in
  let '(outcome, w') := api_create kind clean_payload w in
  let calls' :=
    (calls ++ [{| call_kind := kind; call_params := clean_payload;
                  call_outcome := outcome |}])%list in
  match outcome with
  | RaisesFb _ _ => (Ok VNone, (w', calls'))
  | RaisesOther => (Raise RemoteException, (w', calls'))
  | Returns r => (Ok (default VNone r), (w', calls'))
  end.

(** [r.get('id') if isinstance(r, dict) else getattr(r, 'get', lambda *_: None)('id')] *)
Definition result_id (r : value) : value :=
  match r with
  | VDict d => dict_get d "id"
  | _ => VNone
  end.

(** A create step with the two checks that follow each of them:
    [if not result: return None] and [if not new_id: return None]. *)
Definition create_step (kind : object_kind) (payload : pydict)
    (object_type_for_log : string) (st : run_state) : flow value * run_state :=
  match create_ad_object kind payload object_type_for_log st with
  | (Raise e, st') => (Raised e, st')
  | (Ok r, st') =>
      if negb (truthy r) then (ReturnNone, st')
      else
        let new_id := result_id r in
        if negb (truthy new_id) then (ReturnNone, st') else (Next new_id, st')
  end.

Definition has_budget (params : pydict) : bool :=
  has_key params "daily_budget" || has_key params "lifetime_budget".

(** [d.get(k, {}) if isinstance(d, dict) else {}] *)
Definition get_or_empty (d : value) (k : string) : value :=
  match d with
  | VDict m => default (VDict ∅) (m !! k)
  | _ => VDict ∅
  end.

(** [str(d.get('id')) if d.get('id') else fallback] *)
Definition key_of (d : pydict) (fallback : string) : string :=
  let i := dict_get d "id" in
  if truthy i then py_str i else fallback.

Definition index_str (i : nat) : string := PyStr.str_of_Z (Z.of_nat i).

(** The body of the loop over the ads of one ad set. *)
Definition process_ad (asset_map : pydict) (adset_key : string) (ad_inputs_map : value)
    (new_adset_id : string) (ad_index : nat) (ad : value) (created_ads : list string)
    (st : run_state) : flow (list string) * run_state :=
  match as_dict ad with
  | Raise e => (Raised e, st)
  | Ok ad_d =>
    let adset_specific_key := key_of ad_d (adset_key ++ "_ad_" ++ index_str ad_index) in
    let ad_display_name := default (VStr adset_specific_key) (ad_d !! "name") in
    let ad_input := get_or_empty ad_inputs_map adset_specific_key in
    let ad_field_overrides := get_or_empty ad_input "fields" in
    let creative_inputs := get_or_empty ad_input "creative" in
    let creative_template := dict_get ad_d "creative_details" in
    match build_creative_payload creative_template creative_inputs asset_map with
    | Raise e => (Raised e, st)
    | Ok (creative_payload, _) =>
      match creative_payload with
      | None => (Next created_ads, st)
      | Some creative_payload =>
        if bool_decide (creative_payload = ∅) then (Next created_ads, st)
        else
          let creative_payload :=
            base_of (sanitize_payload (now_of st.1) (VDict creative_payload) "creative") in
          match create_step KCreative creative_payload
                  ("Creative（Ad '" ++ py_str ad_display_name ++ "'）") st with
          | (Raised e, st1) => (Raised e, st1)
          | (ReturnNone, st1) => (ReturnNone, st1)
          | (Next new_creative_id, st1) =>
            match sanitize_ad_payload ad ad_field_overrides new_adset_id
                    (py_str new_creative_id) with
            | Raise e => (Raised e, st1)
            | Ok ad_payload =>
              let ad_payload :=
                base_of (sanitize_payload (now_of st1.1) (VDict ad_payload) "ad") in
              match create_step KAd ad_payload ("Ad: " ++ py_str ad_display_name) st1 with
              | (Raised e, st2) => (Raised e, st2)
              | (ReturnNone, st2) => (ReturnNone, st2)
              | (Next new_ad_id, st2) =>
                  (Next (created_ads ++ [py_str new_ad_id])%list, st2)
              end
            end
          end
      end
    end
  end.

(** [for ad_index, ad in enumerate(ad_templates)] *)
Fixpoint process_ads (asset_map : pydict) (adset_key : string) (ad_inputs_map : value)
    (new_adset_id : string) (ad_index : nat) (ad_templates : list value)
    (created_ads : list string) (st : run_state) : flow (list string) * run_state :=
  match ad_templates with
  | [] => (Next created_ads, st)
  | ad :: rest =>
      match process_ad asset_map adset_key ad_inputs_map new_adset_id ad_index ad
              created_ads st with
      | (Next created_ads', st') =>
          process_ads asset_map adset_key ad_inputs_map new_adset_id (S ad_index) rest
            created_ads' st'
      | stop => stop
      end
  end.

(** The body of the loop over the ad sets. *)
Definition process_adset (asset_map : pydict) (is_cbo : bool) (adset_inputs_map : value)
    (new_campaign_id : string) (index : nat) (ad_set : value)
    (created : list string * list string) (st : run_state)
    : flow (list string * list string) * run_state :=
  let '(created_adsets, created_ads) := created in
  match as_dict ad_set with
  | Raise e => (Raised e, st)
  | Ok ad_set_d =>
    let adset_key := key_of ad_set_d ("adset_" ++ index_str index) in
    let adset_display_name := default (VStr adset_key) (ad_set_d !! "name") in
    let adset_inputs := get_or_empty adset_inputs_map adset_key in
    let adset_field_overrides := get_or_empty adset_inputs "fields" in
    match sanitize_adset_payload ad_set adset_field_overrides new_campaign_id is_cbo with
    | Raise e => (Raised e, st)
    | Ok adset_payload =>
      let adset_params :=
        base_of (sanitize_payload (now_of st.1) (VDict adset_payload) "adset") in
      if negb is_cbo && negb (has_budget adset_params)
      then (Raised (ValueError ("Ad Set " ++ py_str adset_display_name
                                ++ " 缺少預算設定，請輸入每日或整體預算。")), st)
      else
        match create_step KAdSet adset_params
                ("Ad Set: " ++ py_str adset_display_name) st with
        | (Raised e, st1) => (Raised e, st1)
        | (ReturnNone, st1) => (ReturnNone, st1)
        | (Next new_adset_id, st1) =>
          let created_adsets := (created_adsets ++ [py_str new_adset_id])%list in
          let ad_inputs_map := get_or_empty adset_inputs "ads" in
          let ad_templates :=
            match dict_get ad_set_d "ads" with VList l => l | _ => [] end in
          match process_ads asset_map adset_key ad_inputs_map (py_str new_adset_id) 0
                  ad_templates created_ads st1 with
          | (Next created_ads', st2) => (Next (created_adsets, created_ads'), st2)
          | (ReturnNone, st2) => (ReturnNone, st2)
          | (Raised e, st2) => (Raised e, st2)
          end
        end
    end
  end.

(** [for index, ad_set in enumerate(ad_sets_template)] *)
Fixpoint process_adsets (asset_map : pydict) (is_cbo : bool) (adset_inputs_map : value)
    (new_campaign_id : string) (index : nat) (ad_sets_template : list value)
    (created : list string * list string) (st : run_state)
    : flow (list string * list string) * run_state :=
  match ad_sets_template with
  | [] => (Next created, st)
  | ad_set :: rest =>
      match process_adset asset_map is_cbo adset_inputs_map new_campaign_id index ad_set
              created st with
      | (Next created', st') =>
          process_adsets asset_map is_cbo adset_inputs_map new_campaign_id (S index) rest
            created' st'
      | stop => stop
      end
  end.

(** [create_campaign_from_template]: what it returns ([Next r] is
    [return r], a Creation Result) and the create calls it issued. *)
Definition create_campaign_from_template (template_data user_inputs asset_map : pydict)
    (is_cbo : bool) (w : W) : flow creation_result * run_state :=
  let st : run_state := (w, []) in
  let campaign_template :=
    match dict_get template_data "campaign" with VDict d => VDict d | _ => VDict ∅ end in
  let campaign_overrides :=
    match dict_get user_inputs "campaign" with VDict d => d | _ => ∅ end in
  let campaign_payload := sanitize_campaign_payload campaign_template campaign_overrides is_cbo in
  let campaign_params :=
    base_of (sanitize_payload (now_of w) (VDict campaign_payload) "campaign") in
  if is_cbo && negb (has_budget campaign_params)
  then (Raised (ValueError "使用 CBO 的 Campaign 必須設定 daily_budget 或 lifetime_budget 中至少一項"), st)
  else
    let campaign_display_name :=
      py_or (dict_get campaign_params "name") (VStr "未命名 Campaign") in
    match create_step KCampaign campaign_params
            ("Campaign: " ++ py_str campaign_display_name) st with
    | (Raised e, st1) => (Raised e, st1)
    | (ReturnNone, st1) => (ReturnNone, st1)
    | (Next new_campaign_id, st1) =>
      let adset_inputs_map := default (VDict ∅) (user_inputs !! "ad_sets") in
      let ad_sets_template :=
        match dict_get template_data "ad_sets" with VList l => l | _ => [] end in
      match process_adsets asset_map is_cbo adset_inputs_map (py_str new_campaign_id) 0
              ad_sets_template ([], []) st1 with
      | (Next (created_adsets, created_ads), st2) =>
          (Next {| campaign_id := py_str new_campaign_id;
                   adset_ids := created_adsets;
                   ad_ids := created_ads |}, st2)
      | (ReturnNone, st2) => (ReturnNone, st2)
      | (Raised e, st2) => (Raised e, st2)
      end
    end.

End Cloner.

(** ** src/main_extractor.py: the batch orchestrator *)

(** [chunk_list]: slices of [chunk_size] items, the last one shorter. *)
Fixpoint chunk_list_fuel {A} (fuel : nat) (items : list A) (chunk_size : nat)
    : list (list A) :=
  match fuel, items with
  | _, [] => []
  | O, _ => []
  | S fuel', _ => take chunk_size items :: chunk_list_fuel fuel' (drop chunk_size items) chunk_size
  end.

Definition chunk_list {A} (items : list A) (chunk_size : nat) : list (list A) :=
  chunk_list_fuel (length items) items chunk_size.

(** The body of a failed batch member, after [failure_callback] has read it:
    the code and subcode it could convert to integers and the joined
    message texts.  [None] stands for a body that is not a dict. *)
Record error_body : Type := {
  err_code : option Z;
  err_subcode : option Z;
  combined_message : string
}.

(** The [should_retry] decision of [failure_callback]. *)
Definition batch_should_retry (error_payload : option error_body) : bool :=
  match error_payload with
  | None => false
  | Some e =>
      if code_in (err_code e) RATE_LIMIT_ERROR_CODES
         || code_in (err_subcode e) RATE_LIMIT_ERROR_CODES
      then true
      else if PyStr.is_empty (combined_message e) then false
      else
        let lowered := PyStr.lower (combined_message e) in
        PyStr.contains "limit" lowered || PyStr.contains "too many" lowered
  end.

(** What is printed. *)
Inductive log_line : Type :=
| LogHandlerError (label : string)
| LogBatchRequestFailed (label : string)
| LogScheduledRetry (label : string)
| LogNoResult
| LogRetryingBatch (n : nat)
| LogFallback (n : nat)
| LogSequentialFailed (label : string)
| LogSequentialHandlerError (label : string)
| LogUnableToRecover (n : nat) (labels_preview : list string).

Section BatchOrchestrator.
(** [Req] is a prepared request, [Resp] a response and [Rec] a collected
    record. *)
Context {W Req Resp Rec : Type}.

(** An entry of the request list: the request, the description in its
    context (empty when the context has none) and its own description. *)
Record entry : Type := {
  entry_request : Req;
  entry_context_description : string;
  entry_description : string
}.

(** [request_context.get('description') or description or 'unknown'] *)
Definition label_with (e : entry) (description : string) : string :=
  if negb (PyStr.is_empty (entry_context_description e)) then entry_context_description e
  else if negb (PyStr.is_empty description) then description
  else "unknown".

(** The label with the entry's own description, as [failure_callback]
    (which binds it as a default argument) and the fall-back loop have it. *)
Definition label_of (e : entry) : string := label_with e (entry_description e).

(** The label in [success_callback], which reads the loop variable
    [description] when it runs: by then the loop has ended, and the variable
    holds the description of the last entry of the round. *)
Definition late_label_of (remaining_entries : list entry) (e : entry) : string :=
  label_with e (default EmptyString (entry_description <$> last remaining_entries)).

(** A callback of the batch: the position of the request it answers and
    the answer. *)
Inductive reply : Type :=
| Success (response : Resp)
| Failure (error_payload : option error_body).

(** [response_handler(response, context, collector)]: the records it appends
    and whether it raised after that. *)
Variable response_handler : Resp -> entry -> list Rec * bool.
(** One [batch.execute()]: the callbacks it fires and how it ends. *)
Variable batch_execute : list Req -> W -> list (nat * reply) * call_result unit * W.
(** One [request_obj.execute()] of the sequential fall-back. *)
Variable request_execute : Req -> W -> call_result Resp * W.

(** What the callbacks of one round have filled in. *)
Record round_state : Type := {
  attempt_results : list Rec;
  retry_entries : list entry;
  printed : list log_line
}.

(** [success_callback] and [failure_callback] for the entry at [i]. *)
Definition fire_callback (remaining_entries : list entry) (rs : round_state)
    (cb : nat * reply) : round_state :=
  match remaining_entries !! cb.1 with
  | None => rs
  | Some e =>
      match cb.2 with
      | Success response =>
          let '(records, raised) := response_handler response e in
          {| attempt_results := (attempt_results rs ++ records)%list;
             retry_entries := retry_entries rs;
             printed := if raised
                        then (printed rs
                                ++ [LogHandlerError (late_label_of remaining_entries e)])%list
                        else printed rs |}
      | Failure error_payload =>
          let should_retry := batch_should_retry error_payload in
          {| attempt_results := attempt_results rs;
             retry_entries := if should_retry then (retry_entries rs ++ [e])%list
                              else retry_entries rs;
             printed := (printed rs ++ LogBatchRequestFailed (label_of e)
                           :: (if should_retry then [LogScheduledRetry (label_of e)] else []))%list |}
      end
  end.

(** [batch.execute] as the callable handed to [make_api_request]: its
    callbacks write into the collectors of the round. *)
Definition batch_call (remaining_entries : list entry) (s : W * round_state)
    : call_result unit * (W * round_state) :=
  let '(replies, outcome, w') := batch_execute (entry_request <$> remaining_entries) s.1 in
  (outcome, (w', foldl (fire_callback remaining_entries) s.2 replies)).

(** The [while remaining_entries and attempt <= max_attempts] loop of one
    chunk; it yields the chunk's results, the entries left for the
    fall-back, the lines printed and the platform state. *)
Fixpoint batch_rounds (fuel : nat) (max_attempts attempt : nat)
    (remaining_entries : list entry) (chunk_results : list Rec) (log : list log_line)
    (w : W) : list Rec * list entry * list log_line * W :=
  match fuel with
  | O => (chunk_results, remaining_entries, log, w)
  | S fuel' =>
      match remaining_entries with
      | [] => (chunk_results, remaining_entries, log, w)
      | _ =>
        if negb (attempt <=? max_attempts)%nat
        then (chunk_results, remaining_entries, log, w)
        else
          let run :=
            make_api_request (batch_call remaining_entries) 5 1
              (w, {| attempt_results := []; retry_entries := []; printed := [] |}) in
          let '(w', rs) := run_world run in
          let log :=
            (log ++ printed rs ++
               (match run_result run, attempt_results rs with
                | None, [] => [LogNoResult]
                | _, _ => []
                end))%list in
          let chunk_results := (chunk_results ++ attempt_results rs)%list in
          match retry_entries rs with
          | [] => (chunk_results, [], log, w')
          | _ =>
              if (max_attempts <=? attempt)%nat
              then (chunk_results, retry_entries rs, log, w')
              else batch_rounds fuel' max_attempts (S attempt) (retry_entries rs)
                     chunk_results
                     (log ++ [LogRetryingBatch (length (retry_entries rs))])%list w'
          end
      end
  end.

(** The sequential fall-back loop over the entries a chunk has left. *)
Fixpoint sequential_fallback (remaining_entries : list entry)
    (fallback_results : list Rec) (failed_fallback : list entry) (log : list log_line)
    (w : W) : list Rec * list entry * list log_line * W :=
  match remaining_entries with
  | [] => (fallback_results, failed_fallback, log, w)
  | e :: rest =>
      let run := make_api_request (request_execute (entry_request e)) 3 5 w in
      match run_result run with
      | None =>
          sequential_fallback rest fallback_results (failed_fallback ++ [e])%list
            (log ++ [LogSequentialFailed (label_of e)])%list (run_world run)
      | Some response =>
          let '(records, raised) := response_handler response e in
          if raised then
            sequential_fallback rest (fallback_results ++ records)%list
              (failed_fallback ++ [e])%list
              (log ++ [LogSequentialHandlerError (label_of e)])%list (run_world run)
          else
            sequential_fallback rest (fallback_results ++ records)%list failed_fallback
              log (run_world run)
      end
  end.

(** The body of [for chunk in chunk_list(...)]. *)
Definition process_chunk (max_chunk_retries : Z) (chunk : list entry)
    (aggregated : list Rec) (log : list log_line) (w : W)
    : list Rec * list log_line * W :=
  let max_attempts := Z.to_nat (Z.max 1 max_chunk_retries) in
  let '(chunk_results, remaining_entries, log, w) :=
    batch_rounds max_attempts max_attempts 1 chunk [] log w in
  let aggregated := (aggregated ++ chunk_results)%list in
  match remaining_entries with
  | [] => (aggregated, log, w)
  | _ =>
      let log := (log ++ [LogFallback (length remaining_entries)])%list in
      let '(fallback_results, failed_fallback, log, w) :=
        sequential_fallback remaining_entries [] [] log w in
      let aggregated := (aggregated ++ fallback_results)%list in
      match failed_fallback with
      | [] => (aggregated, log, w)
      | _ =>
          (aggregated,
           (log ++ [LogUnableToRecover (length failed_fallback)
                      (take 5 (entry_description <$> failed_fallback))])%list, w)
      end
  end.

(** [execute_batch_requests]: the aggregated records, the lines printed
    and the platform state; the sleeps between rounds and chunks are left
    out. *)
Definition execute_batch_requests (requests : list entry) (max_chunk_retries : Z)
    (chunk_size : Z) (w : W) : list Rec * list log_line * W :=
  foldl (fun '(aggregated, log, w) chunk =>
           process_chunk max_chunk_retries chunk aggregated log w)
        ([], [], w)
        (chunk_list requests (Z.to_nat (Z.max 1 chunk_size))).

End BatchOrchestrator.

(** ** A reference library

    An executable reading of the library functions, for the concrete runs
    below: decimal literals for [float], JSON texts without unicode escapes
    for [json.loads], instants counted in whole seconds of UTC written
    [YYYY-MM-DDTHH:MM:SS+00:00]. *)

Module RefLib.

Definition digit_of (a : ascii) : Z := Z.of_nat (nat_of_ascii a - 48).

(** The double quote. *)
Definition dquote : ascii := ascii_of_nat 34.

(** The longest prefix of digits: its value, its length and the rest. *)
Fixpoint read_digits (s : string) (acc : Z) (n : nat) : Z * nat * string :=
  match s with
  | String a r =>
      if PyStr.is_digit a then read_digits r (10 * acc + digit_of a)%Z (S n)
      else (acc, n, s)
  | EmptyString => (acc, n, s)
  end.

Definition read_sign (s : string) (allow_plus : bool) : bool * string :=
  match s with
  | String "-" r => (true, r)
  | String "+" r => if allow_plus then (false, r) else (false, s)
  | _ => (false, s)
  end.

(** A number literal: the value, whether it is written as an integer, and
    the rest.  [lenient] admits [float]'s leading [+] and bare [.5], [5.]. *)
Definition read_number (lenient : bool) (s : string) : option (Q * bool * string) :=
  let '(neg, s1) := read_sign s lenient in
  let '(ip, ni, s2) := read_digits s1 0 0 in
  let '(fp, nf, s3, dotted) :=
    match s2 with
    | String "." r => let '(v, n, r') := read_digits r 0 0 in (v, n, r', true)
    | _ => (0%Z, 0%nat, s2, false)
    end in
  let digits_ok :=
    if lenient then negb ((ni =? 0)%nat && (nf =? 0)%nat)
    else negb (ni =? 0)%nat && (negb dotted || negb (nf =? 0)%nat) in
  if negb digits_ok then None
  else
    let mantissa := (inject_Z ip + inject_Z fp / inject_Z (10 ^ Z.of_nat nf))%Q in
    let finish (e : Z) (is_int : bool) (rest : string) :=
      let q := Qred (mantissa * 10 ^ e)%Q in
      Some (if neg then Qred (- q)%Q else q, is_int, rest) in
    match s3 with
    | String c r =>
        if Ascii.eqb c "e" || Ascii.eqb c "E" then
          let '(eneg, r1) := read_sign r true in
          let '(ev, ne, r2) := read_digits r1 0 0 in
          if (ne =? 0)%nat then None
          else finish (if eneg then (- ev)%Z else ev) false r2
        else finish 0%Z (negb dotted) s3
    | EmptyString => finish 0%Z (negb dotted) s3
    end.

(** [float(s)] on decimal literals, blanks around them allowed. *)
Definition float_of_string (s : string) : option Q :=
  match read_number true (PyStr.strip s) with
  | Some (q, _, EmptyString) => Some q
  | _ => None
  end.

Definition is_json_space (a : ascii) : bool :=
  let n := nat_of_ascii a in
  (n =? 32)%nat || (n =? 9)%nat || (n =? 10)%nat || (n =? 13)%nat.

Fixpoint skip_ws (s : string) : string :=
  match s with
  | String a r => if is_json_space a then skip_ws r else s
  | EmptyString => s
  end.

(** The characters of a JSON string up to its closing quote. *)
Fixpoint read_string (s : string) : option (string * string) :=
  match s with
  | EmptyString => None
  | String a r =>
      if Ascii.eqb a dquote then Some (EmptyString, r)
      else if Ascii.eqb a "\" then
        match r with
        | String e r' =>
            let plain (c : ascii) :=
              match read_string r' with
              | Some (t, rest) => Some (String c t, rest)
              | None => None
              end in
            if Ascii.eqb e dquote then plain dquote
            else if Ascii.eqb e "\" then plain "\"%char
            else if Ascii.eqb e "/" then plain "/"%char
            else if Ascii.eqb e "n" then plain (ascii_of_nat 10)
            else if Ascii.eqb e "t" then plain (ascii_of_nat 9)
            else if Ascii.eqb e "r" then plain (ascii_of_nat 13)
            else if Ascii.eqb e "b" then plain (ascii_of_nat 8)
            else if Ascii.eqb e "f" then plain (ascii_of_nat 12)
            else None
        | EmptyString => None
        end
      else match read_string r with
           | Some (t, rest) => Some (String a t, rest)
           | None => None
           end
  end.

Definition expect (p s : string) : option string :=
  if String.prefix p s then Some (String.substring (String.length p)
                                    (String.length s - String.length p) s)
  else None.

(** A JSON value and what follows it. *)
Fixpoint read_value (fuel : nat) (s : string) : option (value * string) :=
  match fuel with
  | O => None
  | S fuel' =>
      let read_items :=
        fix read_items (n : nat) (s : string) (acc : list value)
            : option (list value * string) :=
          match n with
          | O => None
          | S n' =>
              match read_value fuel' s with
              | None => None
              | Some (v, rest) =>
                  match skip_ws rest with
                  | String "," r => read_items n' r (acc ++ [v])%list
                  | String "]" r => Some ((acc ++ [v])%list, r)
                  | _ => None
                  end
              end
          end in
      let read_members :=
        fix read_members (n : nat) (s : string) (acc : pydict)
            : option (pydict * string) :=
          match n with
          | O => None
          | S n' =>
              match skip_ws s with
              | String q r =>
                  match (if Ascii.eqb q dquote then read_string r else None) with
                  | None => None
                  | Some (k, rest) =>
                      match skip_ws rest with
                      | String ":" r1 =>
                          match read_value fuel' r1 with
                          | None => None
                          | Some (v, rest1) =>
                              match skip_ws rest1 with
                              | String "," r2 => read_members n' r2 (<[k := v]> acc)
                              | String "}" r2 => Some (<[k := v]> acc, r2)
                              | _ => None
                              end
                          end
                      | _ => None
                      end
                  end
              | _ => None
              end
          end in
      match skip_ws s with
      | EmptyString => None
      | String a r as s' =>
          if Ascii.eqb a dquote then
            match read_string r with
            | Some (t, rest) => Some (VStr t, rest)
            | None => None
            end
          else if Ascii.eqb a "[" then
            match skip_ws r with
            | String "]" r' => Some (VList [], r')
            | _ => match read_items (String.length r) r [] with
                   | Some (items, rest) => Some (VList items, rest)
                   | None => None
                   end
            end
          else if Ascii.eqb a "{" then
            match skip_ws r with
            | String "}" r' => Some (VDict ∅, r')
            | _ => match read_members (String.length r) r ∅ with
                   | Some (m, rest) => Some (VDict m, rest)
                   | None => None
                   end
            end
          else if Ascii.eqb a "n" then
            match expect "null" s' with Some rest => Some (VNone, rest) | None => None end
          else if Ascii.eqb a "t" then
            match expect "true" s' with Some rest => Some (VBool true, rest) | None => None end
          else if Ascii.eqb a "f" then
            match expect "false" s' with Some rest => Some (VBool false, rest) | None => None end
          else
            match read_number false s' with
            | Some (q, true, rest) => Some (VInt (Qfloor q), rest)
            | Some (q, false, rest) => Some (VFloat q, rest)
            | None => None
            end
      end
  end.

(** [json.loads(s)] *)
Definition loads (s : string) : option value :=
  match read_value (S (String.length s)) s with
  | Some (v, rest) => if PyStr.is_empty (skip_ws rest) then Some v else None
  | None => None
  end.

End RefLib.

Module RefTime.

(** Instants are whole seconds since 1970-01-01T00:00:00+00:00. *)
Definition days_from_civil (y m d : Z) : Z :=
  let y := if (m <=? 2)%Z then (y - 1)%Z else y in
  let era := (y / 400)%Z in
  let yoe := (y - era * 400)%Z in
  let doy := ((153 * (if (2 <? m)%Z then m - 3 else m + 9) + 2) / 5 + d - 1)%Z in
  let doe := (yoe * 365 + yoe / 4 - yoe / 100 + doy)%Z in
  (era * 146097 + doe - 719468)%Z.

Definition civil_from_days (z : Z) : Z * Z * Z :=
  let z := (z + 719468)%Z in
  let era := (z / 146097)%Z in
  let doe := (z - era * 146097)%Z in
  let yoe := ((doe - doe / 1460 + doe / 36524 - doe / 146096) / 365)%Z in
  let doy := (doe - (365 * yoe + yoe / 4 - yoe / 100))%Z in
  let mp := ((5 * doy + 2) / 153)%Z in
  let d := (doy - (153 * mp + 2) / 5 + 1)%Z in
  let m := if (mp <? 10)%Z then (mp + 3)%Z else (mp - 9)%Z in
  ((yoe + era * 400 + (if (m <=? 2)%Z then 1 else 0))%Z, m, d).

(** The instants of the years 1 .. 9999. *)
Definition in_range (t : Z) : bool :=
  ((-62135596800 <=? t) && (t <=? 253402300799))%Z.

Definition pad (width : nat) (n : Z) : string :=
  let s := PyStr.str_of_Z n in
  let fix zeros (k : nat) : string :=
    match k with O => EmptyString | S k' => String "0" (zeros k') end in
  zeros (width - String.length s) ++ s.

Definition isoformat (t : Z) : string :=
  let days := (t / 86400)%Z in
  let secs := (t mod 86400)%Z in
  let '(y, m, d) := civil_from_days days in
  pad 4 y ++ "-" ++ pad 2 m ++ "-" ++ pad 2 d ++ "T"
    ++ pad 2 (secs / 3600) ++ ":" ++ pad 2 (secs mod 3600 / 60) ++ ":"
    ++ pad 2 (secs mod 60) ++ "+00:00".

(** Exactly [n] digits at the head of [s]. *)
Definition fixed_digits (n : nat) (s : string) : option (Z * string) :=
  let head := String.substring 0 n s in
  if (String.length head =? n)%nat && PyStr.all_digits head
  then Some (PyStr.int_of_digits head,
             String.substring n (String.length s - n) s)
  else None.

Definition expect_char (c : ascii) (s : string) : option string :=
  match s with
  | String a r => if Ascii.eqb a c then Some r else None
  | EmptyString => None
  end.

Definition read_date (s : string) : option (Z * string) :=
  '(y, s) ← fixed_digits 4 s;
  s ← expect_char "-" s;
  '(m, s) ← fixed_digits 2 s;
  s ← expect_char "-" s;
  '(d, s) ← fixed_digits 2 s;
  let days := days_from_civil y m d in
  if bool_decide (civil_from_days days = (y, m, d)) && (1 <=? y)%Z
  then Some (days, s) else None.

Definition read_clock (s : string) : option (Z * string) :=
  '(h, s) ← fixed_digits 2 s;
  s ← expect_char ":" s;
  '(mi, s) ← fixed_digits 2 s;
  s ← expect_char ":" s;
  '(sec, s) ← fixed_digits 2 s;
  if ((h <? 24) && (mi <? 60) && (sec <? 60))%Z
  then Some ((h * 3600 + mi * 60 + sec)%Z, s) else None.

(** A date, a separator, a time of day. *)
Definition read_datetime (sep : string -> option string) (s : string)
    : option (Z * string) :=
  '(days, s) ← read_date s;
  s ← sep s;
  '(secs, s) ← read_clock s;
  Some ((days * 86400 + secs)%Z, s).

Definition t_or_blank (s : string) : option string :=
  match expect_char "T" s with
  | Some r => Some r
  | None => expect_char " " s
  end.

(** [datetime.fromisoformat] on [YYYY-MM-DD(T| )HH:MM:SS], with no offset
    or the offset [+00:00]. *)
Definition fromisoformat (s : string) : option Z :=
  match read_datetime t_or_blank s with
  | Some (t, rest) =>
      if PyStr.is_empty rest || String.eqb rest "+00:00" then Some t else None
  | None => None
  end.

(** [datetime.strptime] for the two formats the code tries. *)
Definition strptime (s fmt : string) : option Z :=
  let sep :=
    if String.eqb fmt "%Y-%m-%d %H:%M:%S" then Some (expect_char " ")
    else if String.eqb fmt "%Y-%m-%dT%H:%M:%S" then Some (expect_char "T")
    else None in
  sep ← sep;
  match read_datetime sep s with
  | Some (t, EmptyString) => Some t
  | _ => None
  end.

Definition fromtimestamp (q : Q) : option Z :=
  let t := Qfloor q in
  if in_range t then Some t else None.

End RefTime.

Module RefRepr.

(** The digits of a fraction [0 <= n/d < 1], at most [fuel] of them. *)
Fixpoint fraction_digits (fuel : nat) (n d : Z) : string :=
  match fuel with
  | O => EmptyString
  | S fuel' =>
      if (n =? 0)%Z then EmptyString
      else String (ascii_of_nat (48 + Z.to_nat (10 * n / d)))
             (fraction_digits fuel' ((10 * n) mod d) d)
  end.

(** [str(x)] for a float in positional notation. *)
Definition float_repr (q : Q) : string :=
  let a := Qabs q in
  let ip := Qfloor a in
  let num := (Qnum a - ip * Zpos (Qden a))%Z in
  let frac := fraction_digits 17 num (Zpos (Qden a)) in
  (if Qle_bool 0 q then EmptyString else "-")
    ++ PyStr.str_of_Z ip ++ "."
    ++ (if PyStr.is_empty frac then "0" else frac).

Fixpoint join (sep : string) (l : list string) : string :=
  match l with
  | [] => EmptyString
  | [x] => x
  | x :: r => x ++ sep ++ join sep r
  end.

(** [repr(v)]; the items of a dict come in the order of their keys. *)
Fixpoint repr (v : value) : string :=
  match v with
  | VNone => "None"
  | VBool b => if b then "True" else "False"
  | VInt n => PyStr.str_of_Z n
  | VFloat q => float_repr q
  | VStr s => "'" ++ s ++ "'"
  | VList l => "[" ++ join ", " (repr <$> l) ++ "]"
  | VDict m =>
      "{" ++ join ", " (map_fold (fun k x acc =>
                                   (acc ++ [("'" ++ k ++ "': " ++ repr x)%string])%list)
                                [] m)
          ++ "}"
  end.

End RefRepr.

(** The reference library as an instance. *)
Definition ref_lib : PyLib := {|
  py_float := RefLib.float_of_string;
  json_loads := RefLib.loads;
  py_repr := RefRepr.repr;
  datetime := Z;
  dt_fromtimestamp := RefTime.fromtimestamp;
  dt_fromisoformat := RefTime.fromisoformat;
  dt_strptime := RefTime.strptime;
  dt_assume_utc := fun t => t;
  dt_isoformat_seconds := RefTime.isoformat;
  dt_ge := Z.geb
|}.

(** 2025-01-01T00:00:00+00:00, the clock reading of the concrete runs. *)
Definition ref_now : Z := 1735689600.

(** ** What the statements below speak of *)

Section RequestOutcomes.
Context {W A : Type}.




End RequestOutcomes.

Section SanitizedDict.
Context `{PyLib}.



End SanitizedDict.


(** The answer to a create call is a failure for the cloner when the
    platform raised its error, or answered with nothing, or with something
    that carries no identifier. *)
Definition step_failed (rec : call_record) : bool :=
  match call_outcome rec with
  | RaisesFb _ _ => true
  | Returns r =>
      negb (truthy (default VNone r)) || negb (truthy (result_id (default VNone r)))
  | RaisesOther => false
  end.

Definition step_passed (rec : call_record) : Prop := step_failed rec = false.

(** The calls of a run that has reached flow [f]: all of them passed,
    except that a run that returns [None] ends on the one call that failed. *)
Definition trace_inv {A : Type} (f : flow A) (calls : list call_record) : Prop :=
  match f with
  | ReturnNone =>
      exists good rec, calls = (good ++ [rec])%list
                       /\ Forall step_passed good /\ step_failed rec = true
  | _ => Forall step_passed calls
  end.

(** ** Concrete platforms, templates and runs *)

(** A callable that is throttled for ever: error code 17 on every call,
    counted in the state. *)
Definition always_throttled (n : nat) : call_result value * nat :=
  (RaisesFb (Some 17%Z) None, S n).

(** A remote platform that answers from a script: each create call takes
    the next answer, and an exhausted script answers with nothing. *)
Definition scripted_api (kind : object_kind) (params : pydict)
    (script : list (call_result value)) : call_result value * list (call_result value) :=
  match script with
  | answer :: rest => (answer, rest)
  | [] => (Returns None, [])
  end.

(** The answer to a create call that succeeded with identifier [i]. *)
Definition created (i : string) : call_result value :=
  Returns (Some (VDict {["id" := VStr i]})).

Definition fixed_clock (script : list (call_result value)) : Z := ref_now.

Definition example_ad : value :=
  VDict (<["name" := VStr "Ad 1"]>
           (<["creative_details" :=
                VDict (<["name" := VStr "Cr"]>
                         (<["object_story_spec" :=
                              VDict {["link_data" :=
                                        VDict {["link" := VStr "https://example.com"]}]}]> ∅))]>
              ∅)).

Definition example_adset (name : string) (ads : list value) : value :=
  VDict (<["name" := VStr name]>
           (<["daily_budget" := VInt 1000]> (<["ads" := VList ads]> ∅))).

(** A campaign with three ad sets; the first two have one ad each. *)
Definition example_template : pydict :=
  <["campaign" := VDict {["name" := VStr "Spring"]}]>
    (<["ad_sets" := VList [ example_adset "S1" [example_ad];
                            example_adset "S2" [example_ad];
                            example_adset "S3" [] ]]> ∅).

(** The run in which the create call of the second ad set is answered with
    nothing. *)
Definition aborted_run : flow creation_result * (list (call_result value) * list call_record) :=
  @create_campaign_from_template ref_lib _ scripted_api fixed_clock
    example_template ∅ ∅ false
    [created "c1"; created "s1"; created "cr1"; created "a1"; Returns None; created "s3"].




(** A platform whose batch endpoint is down: [batch.execute] raises before
    any callback fires.  Single requests would be answered; the state counts
    how many of them were executed. *)
Definition batch_down (requests : list string) (w : nat)
    : list (nat * @reply string) * call_result unit * nat :=
  ([], RaisesOther, w).

Definition single_request_ok (request : string) (w : nat) : call_result string * nat :=
  (Returns (Some request), S w).

(** A handler that collects the response as one record and does not raise. *)
Definition collect_response (response : string) (e : @entry string) : list string * bool :=
  ([response], false).

Definition adsets_request (campaign : string) : @entry string :=
  {| entry_request := campaign;
     entry_context_description := campaign ++ "/adsets";
     entry_description := campaign ++ "/adsets" |}.

Definition three_requests : list (@entry string) :=
  [adsets_request "1"; adsets_request "2"; adsets_request "3"].

(** ** More of what the statements speak of *)






(** ** pages/1_Campaign_Cloner.py: reading a creative back *)

Section CreativeReaders.
Context `{PyLib}.

(** [str(item) for item in d.get('retailer_item_ids') if str(item).strip()]
    when the value is a list *)
Definition listed_retailer_ids (d : pydict) : list string :=
  match d !! "retailer_item_ids" with
  | Some (VList section_ids) =>
      filter (fun item => negb (PyStr.is_empty (PyStr.strip item)) = true)
             (py_str <$> section_ids)
  | _ => []
  end.

(** [extract_retailer_item_ids] *)
Definition extract_retailer_item_ids (creative : value) : list string :=
  match creative with
  | VDict creative =>
      let items :=
        match dict_get creative "object_story_spec" with
        | VDict story_spec =>
            (listed_retailer_ids story_spec
             ++ concat ((fun section_key =>
                           match story_spec !! section_key with
                           | Some (VDict section) => listed_retailer_ids section
                           | _ => []
                           end) <$> ["link_data"; "video_data"; "template_data"]))%list
        | _ => []
        end in
      clean_retailer_ids items
  | _ => []
  end.

(** The value a builder gives a field of the schema: the override when
    there is one, else the template's value, normalised. *)
Definition field_value (base overrides : pydict) (field : string) : value :=
  let original_value := dict_get base field in
  normalize_input_value field (default original_value (overrides !! field)) original_value.

End CreativeReaders.


(** * Properties *)

(** ** The request executor *)

Section RequestExecutorFacts.
Context {W A : Type}.
Variable api_call_function : W -> call_result A * W.





End RequestExecutorFacts.



(** C10. With [max_retries <= 0] the executor returns the null sentinel
    and never invokes the callable: no call, no sleep, the remote state
    untouched. *)
Theorem make_api_request_no_attempt {W A : Type}
    (api_call_function : W -> call_result A * W)
    (max_retries : Z) (initial_backoff : Q) (w : W) :
  (max_retries <= 0)%Z ->
  make_api_request api_call_function max_retries initial_backoff w
  = {| run_result := None; run_calls := 0; run_sleeps := []; run_world := w |}.
Proof.
  intros Hle. unfold make_api_request.
  replace (Z.to_nat max_retries) with O by lia. reflexivity.
Qed.

Lemma make_api_request_no_attempt_witness :
  make_api_request always_throttled (-2) 1 7%nat
  = {| run_result := None; run_calls := 0; run_sleeps := []; run_world := 7%nat |}.
Proof.
  apply (make_api_request_no_attempt always_throttled (-2) 1 7%nat). lia.
Defined.

(** ** The structural sanitizer: which keys a rule can touch *)

Section SanitizerFacts.
Context `{PyLib}.















End SanitizerFacts.

(** ** [special_ad_categories] at the top level *)




(** ** The two budgets *)

Section BudgetFacts.
Context `{PyLib}.




End BudgetFacts.

(** C4 at a payload with a daily budget of a quarter of a unit and a
    lifetime budget of 100: [_parse_positive_amount] tests the amount before
    it rounds it, so the daily budget wins with the value 0, which is not a
    positive integer, and the lifetime budget of 100 is dropped. *)
Theorem sanitize_payload_daily_budget_rounds_to_zero :
  let payload : pydict :=
    <["daily_budget" := VFloat (1 # 4)]> (<["lifetime_budget" := VInt 100]> ∅) in
  @_parse_positive_amount ref_lib (VFloat (1 # 4)) = Some 0%Z
  /\ @sanitize_payload ref_lib ref_now (VDict payload) "adset"
     = VDict (<["daily_budget" := VInt 0]> (<["special_ad_categories" := VList []]> ∅)).
Proof. split; vm_compute; reflexivity. Qed.

(** C7 at a payload with a spend cap of a quarter of a unit: the first pass
    leaves [spend_cap = 0], the second pass removes it. *)
Theorem sanitize_payload_not_idempotent :
  let payload : pydict :=
    <["name" := VStr "Spring"]> (<["spend_cap" := VFloat (1 # 4)]> ∅) in
  let once := @sanitize_payload ref_lib ref_now (VDict payload) "campaign" in
  let twice := @sanitize_payload ref_lib ref_now once "campaign" in
  once = VDict (<["name" := VStr "Spring"]>
                  (<["spend_cap" := VInt 0]> (<["special_ad_categories" := VList []]> ∅)))
  /\ twice = VDict (<["name" := VStr "Spring"]> (<["special_ad_categories" := VList []]> ∅))
  /\ twice <> once.
Proof.
  split; [vm_compute; reflexivity|].
  split; [vm_compute; reflexivity|].
  vm_compute. intros Heq. discriminate Heq.
Qed.

(** ** The decimal text of an integer *)









Lemma str_of_Z_negative (p : positive) :
  PyStr.str_of_Z (Zneg p) = String "-" (PyStr.str_of_Z (Zpos p)).
Proof. reflexivity. Qed.

(** ** Per-field normalisation of the budget-class fields *)





(** ** Retailer item ids in the creative payload *)

(** C6 at the input ["A, A, B ,"], with a creative template that has a
    [link_data] and a [template_data] section: inside [object_story_spec]
    the ids are [A; B] at its top and in both sections, but the
    [retailer_item_ids] field of the payload itself is [A; A; B], the list
    as it was split, with the duplicate still in it. *)
Theorem build_creative_payload_retailer_ids :
  let creative_template :=
    VDict (<["name" := VStr "Tpl"]>
             (<["object_story_spec" :=
                  VDict (<["link_data" := VDict {["link" := VStr "https://example.com"]}]>
                           (<["template_data" := VDict ∅]> ∅))]> ∅)) in
  let creative_inputs := VDict {["retailer_item_ids" := VStr "A, A, B ,"]} in
  let deduplicated := VList [VStr "A"; VStr "B"] in
  build_creative_payload creative_template creative_inputs ∅
  = Ok (Some (<["name" := VStr "Tpl"]>
                (<["retailer_item_ids" := VList [VStr "A"; VStr "A"; VStr "B"]]>
                   (<["object_story_spec" :=
                        VDict (<["retailer_item_ids" := deduplicated]>
                                 (<["link_data" :=
                                      VDict (<["link" := VStr "https://example.com"]>
                                               {["retailer_item_ids" := deduplicated]})]>
                                    (<["template_data" :=
                                         VDict {["retailer_item_ids" := deduplicated]}]> ∅)))]>
                      ∅))),
        VNone).
Proof. vm_compute. reflexivity. Qed.

(** ** The hierarchical cloner: what a failed create step does to the run *)

Section ClonerFacts.
Context `{PyLib}.
Context {W : Type}.
Variable api_create : object_kind -> pydict -> W -> call_result value * W.
Variable now_of : W -> datetime.

Lemma create_step_calls kind payload label (w : W) (calls : list call_record) :
  exists rec w',
    call_kind rec = kind
    /\ (create_step api_create now_of kind payload label (w, calls)).2
       = (w', (calls ++ [rec])%list)
    /\ match (create_step api_create now_of kind payload label (w, calls)).1 with
       | ReturnNone => step_failed rec = true
       | _ => step_failed rec = false
       end.
Proof.
  unfold create_step, create_ad_object.
  destruct (api_create kind
              (base_of (sanitize_payload (now_of w) (VDict payload)
                          (object_type_of_label label))) w) as [outcome w'] eqn:Hcall.
  eexists {| call_kind := kind; call_params := _; call_outcome := outcome |}, w'.
  split; [reflexivity|].
  destruct outcome as [r|c sc|]; simpl.
  - unfold step_failed. simpl.
    destruct (truthy (default VNone r)); simpl; [|split; reflexivity].
    destruct (truthy (result_id (default VNone r))); simpl; split; reflexivity.
  - split; reflexivity.
  - split; reflexivity.
Qed.

Lemma create_step_inv kind payload label (st : run_state) :
  Forall step_passed st.2 ->
  trace_inv (create_step api_create now_of kind payload label st).1
            (create_step api_create now_of kind payload label st).2.2.
Proof.
  destruct st as [w calls]. simpl. intros Hok.
  destruct (create_step_calls kind payload label w calls) as (rec & w' & _ & Hst & Hf).
  rewrite Hst. simpl.
  destruct (create_step api_create now_of kind payload label (w, calls)).1; simpl.
  - apply Forall_app. split; [exact Hok | repeat constructor; exact Hf].
  - exists calls, rec. auto.
  - apply Forall_app. split; [exact Hok | repeat constructor; exact Hf].
Qed.

Lemma process_ad_inv asset_map adset_key ad_inputs_map new_adset_id ad_index ad
    created_ads (st : run_state) :
  Forall step_passed st.2 ->
  let r := process_ad api_create now_of asset_map adset_key ad_inputs_map new_adset_id
             ad_index ad created_ads st in
  trace_inv r.1 r.2.2.
Proof.
  intros Hok r. subst r. unfold process_ad.
  destruct (as_dict ad) as [ad_d|e]; [|exact Hok].
  destruct (build_creative_payload _ _ _) as [[[creative_payload|] info]|e]; try exact Hok.
  destruct (bool_decide (creative_payload = ∅)); [exact Hok|].
  match goal with
  | |- context [create_step api_create now_of KCreative ?p ?l st] =>
      pose proof (create_step_inv KCreative p l st Hok) as Hcr;
      destruct (create_step api_create now_of KCreative p l st) as [[new_creative_id| |e] st1]
  end; simpl in Hcr; try exact Hcr.
  destruct (sanitize_ad_payload _ _ _ _) as [ad_payload|e]; [|exact Hcr].
  match goal with
  | |- context [create_step api_create now_of KAd ?p ?l st1] =>
      pose proof (create_step_inv KAd p l st1 Hcr) as Had;
      destruct (create_step api_create now_of KAd p l st1) as [[new_ad_id| |e] st2]
  end; simpl in Had; exact Had.
Qed.

Lemma process_ads_inv asset_map adset_key ad_inputs_map new_adset_id ad_templates :
  forall ad_index created_ads (st : run_state),
  Forall step_passed st.2 ->
  let r := process_ads api_create now_of asset_map adset_key ad_inputs_map new_adset_id
             ad_index ad_templates created_ads st in
  trace_inv r.1 r.2.2.
Proof.
  induction ad_templates as [|ad rest IH]; intros ad_index created_ads st Hok; simpl.
  - exact Hok.
  - pose proof (process_ad_inv asset_map adset_key ad_inputs_map new_adset_id ad_index ad
                  created_ads st Hok) as Hone.
    simpl in Hone.
    destruct (process_ad api_create now_of asset_map adset_key ad_inputs_map new_adset_id
                ad_index ad created_ads st) as [[created_ads'| |e] st']; simpl in *.
    + apply IH. exact Hone.
    + exact Hone.
    + exact Hone.
Qed.

Lemma process_adset_inv asset_map is_cbo adset_inputs_map new_campaign_id index ad_set
    created (st : run_state) :
  Forall step_passed st.2 ->
  let r := process_adset api_create now_of asset_map is_cbo adset_inputs_map
             new_campaign_id index ad_set created st in
  trace_inv r.1 r.2.2.
Proof.
  intros Hok r. subst r. unfold process_adset.
  destruct created as [created_adsets created_ads].
  destruct (as_dict ad_set) as [ad_set_d|e]; [|exact Hok].
  destruct (sanitize_adset_payload _ _ _ _) as [adset_payload|e]; [|exact Hok].
  match goal with |- context [if ?c then _ else _] => destruct c end; [exact Hok|].
  match goal with
  | |- context [create_step api_create now_of KAdSet ?p ?l st] =>
      pose proof (create_step_inv KAdSet p l st Hok) as Hset;
      destruct (create_step api_create now_of KAdSet p l st) as [[new_adset_id| |e] st1]
  end; simpl in Hset; try exact Hset.
  match goal with
  | |- context [process_ads api_create now_of ?a ?k ?m ?i ?n ?l ?c st1] =>
      pose proof (process_ads_inv a k m i l n c st1 Hset) as Hads;
      destruct (process_ads api_create now_of a k m i n l c st1) as [[created_ads'| |e] st2]
  end; simpl in Hads; exact Hads.
Qed.

Lemma process_adsets_inv asset_map is_cbo adset_inputs_map new_campaign_id ad_sets_template :
  forall index created (st : run_state),
  Forall step_passed st.2 ->
  let r := process_adsets api_create now_of asset_map is_cbo adset_inputs_map
             new_campaign_id index ad_sets_template created st in
  trace_inv r.1 r.2.2.
Proof.
  induction ad_sets_template as [|ad_set rest IH]; intros index created st Hok; simpl.
  - exact Hok.
  - pose proof (process_adset_inv asset_map is_cbo adset_inputs_map new_campaign_id index
                  ad_set created st Hok) as Hone.
    simpl in Hone.
    destruct (process_adset api_create now_of asset_map is_cbo adset_inputs_map
                new_campaign_id index ad_set created st) as [[created'| |e] st']; simpl in *.
    + apply IH. exact Hone.
    + exact Hone.
    + exact Hone.
Qed.

Lemma create_campaign_from_template_inv template_data user_inputs asset_map is_cbo (w : W) :
  let r := create_campaign_from_template api_create now_of template_data user_inputs
             asset_map is_cbo w in
  trace_inv r.1 r.2.2.
Proof.
  intros r. subst r. unfold create_campaign_from_template.
  match goal with |- context [if ?c then _ else _] => destruct c end; [constructor|].
  match goal with
  | |- context [create_step api_create now_of KCampaign ?p ?l ?s] =>
      pose proof (create_step_inv KCampaign p l s (Forall_nil_2 _)) as Hc;
      destruct (create_step api_create now_of KCampaign p l s) as [[new_campaign_id| |e] st1]
  end; simpl in Hc; try exact Hc.
  match goal with
  | |- context [process_adsets api_create now_of ?a ?c ?m ?i ?n ?l ?cr st1] =>
      pose proof (process_adsets_inv a c m i l n cr st1 Hc) as Hsets;
      destruct (process_adsets api_create now_of a c m i n l cr st1)
        as [[[created_adsets created_ads]| |e] st2]
  end; simpl in Hsets; exact Hsets.
Qed.

End ClonerFacts.

(** C1, as the code has it.  In every run of the cloner, a create call
    (campaign, ad set, creative or ad) whose answer is a platform error,
    nothing, or something without an identifier is the last call the run
    issues, and the run returns [None]: the identifiers created before the
    abort are not handed back. *)
Theorem cloner_abort_on_failed_step `{PyLib} {W : Type}
    (api_create : object_kind -> pydict -> W -> call_result value * W)
    (now_of : W -> datetime)
    (template_data user_inputs asset_map : pydict) (is_cbo : bool) (w : W)
    (i : nat) (rec : call_record) :
  let run := create_campaign_from_template api_create now_of template_data user_inputs
               asset_map is_cbo w in
  run.2.2 !! i = Some rec ->
  step_failed rec = true ->
  run.1 = ReturnNone /\ S i = length run.2.2.
Proof.
  intros run Hi Hfailed.
  pose proof (create_campaign_from_template_inv api_create now_of template_data user_inputs
                asset_map is_cbo w) as Hinv.
  simpl in Hinv. fold run in Hinv.
  assert (Hpassed : Forall step_passed run.2.2 -> False).
  { intros Hall. rewrite Forall_lookup in Hall. specialize (Hall i rec Hi).
    unfold step_passed in Hall. congruence. }
  destruct run.1 as [r| |e]; simpl in Hinv; try (exfalso; exact (Hpassed Hinv)).
  destruct Hinv as (good & rec' & Hcalls & Hgood & Hrec').
  split; [reflexivity|].
  rewrite Hcalls in Hi |- *. rewrite length_app. simpl.
  destruct (decide (i < length good)) as [Hlt|Hge].
  - rewrite lookup_app_l in Hi by exact Hlt.
    rewrite Forall_lookup in Hgood. specialize (Hgood i rec Hi).
    unfold step_passed in Hgood. congruence.
  - apply lookup_lt_Some in Hi. rewrite length_app in Hi. simpl in Hi. lia.
Qed.

Lemma cloner_abort_on_failed_step_witness :
  aborted_run.1 = ReturnNone
  /\ length aborted_run.2.2 = 5%nat
  /\ call_kind <$> aborted_run.2.2 = [KCampaign; KAdSet; KCreative; KAd; KAdSet].
Proof.
  assert (Hcall : exists rec, aborted_run.2.2 !! 4%nat = Some rec /\ step_failed rec = true).
  { eexists. split; vm_compute; reflexivity. }
  destruct Hcall as (rec & Hi & Hfailed).
  destruct (@cloner_abort_on_failed_step ref_lib _ scripted_api fixed_clock
              example_template ∅ ∅ false
              [created "c1"; created "s1"; created "cr1"; created "a1"; Returns None;
               created "s3"] 4%nat rec Hi Hfailed) as [Hnone Hlen].
  split; [exact Hnone|].
  split; [symmetry; exact Hlen|].
  vm_compute. reflexivity.
Defined.

(** C1 as stated fails: when the second of three ad sets gets no answer,
    the run does not hand back the campaign, the first ad set and its ad;
    it returns [None]. *)
Lemma cloner_abort_returns_none :
  aborted_run.1 = ReturnNone
  /\ aborted_run.1 <> Next {| campaign_id := "c1"; adset_ids := ["s1"]; ad_ids := ["a1"] |}
  /\ call_kind <$> aborted_run.2.2 = [KCampaign; KAdSet; KCreative; KAd; KAdSet].
Proof.
  split; [vm_compute; reflexivity|].
  split; [vm_compute; discriminate|].
  vm_compute. reflexivity.
Qed.

(** ** The budget checks of the cloner *)




(** ** The batch orchestrator when [batch.execute] itself fails *)

Section BatchFacts.
Context {W Req Resp Rec : Type}.
Variable response_handler : Resp -> @entry Req -> list Rec * bool.
Variable batch_execute : list Req -> W -> list (nat * @reply Resp) * call_result unit * W.
Variable request_execute : Req -> W -> call_result Resp * W.

(** [batch.execute] raises an unexpected exception, without a callback and
    without an effect on the platform. *)
Hypothesis batch_fails : forall requests w, batch_execute requests w = ([], RaisesOther, w).

Lemma batch_call_fails (entries : list (@entry Req)) (w : W) (rs : round_state) :
  make_api_request (batch_call response_handler batch_execute entries) 5 1 (w, rs)
  = {| run_result := None; run_calls := 1; run_sleeps := []; run_world := (w, rs) |}.
Proof.
  unfold make_api_request. change (Z.to_nat 5) with 5%nat.
  cbn [make_api_request_loop]. change (0 <? 5)%Z with true. cbv iota.
  unfold batch_call. cbn [fst snd]. rewrite batch_fails. reflexivity.
Qed.

Lemma process_chunk_batch_fails max_chunk_retries (chunk : list (@entry Req))
    (aggregated : list Rec) (log : list log_line) (w : W) :
  chunk <> [] ->
  process_chunk response_handler batch_execute request_execute max_chunk_retries chunk
    aggregated log w
  = (aggregated, (log ++ [LogNoResult])%list, w).
Proof.
  intros Hne. unfold process_chunk.
  destruct (Z.to_nat (Z.max 1 max_chunk_retries)) as [|fuel] eqn:Hfuel; [lia|].
  destruct chunk as [|e chunk]; [contradiction|].
  cbn [batch_rounds]. cbn [Nat.leb negb].
  rewrite batch_call_fails. cbn.
  rewrite !app_nil_r. reflexivity.
Qed.

Lemma chunk_list_fuel_nonempty {A} (fuel : nat) (items : list A) (chunk_size : nat) :
  (0 < chunk_size)%nat -> Forall (fun c => c <> []) (chunk_list_fuel fuel items chunk_size).
Proof.
  intros Hpos. revert items.
  induction fuel as [|fuel IH]; intros [|x items]; simpl; try constructor.
  - destruct chunk_size; [lia|]. discriminate.
  - apply IH.
Qed.

Lemma chunks_batch_fails max_chunk_retries (chunks : list (list (@entry Req))) :
  Forall (fun c => c <> []) chunks ->
  forall (aggregated : list Rec) (log : list log_line) (w : W),
  foldl (fun '(aggregated, log, w) chunk =>
           process_chunk response_handler batch_execute request_execute
             max_chunk_retries chunk aggregated log w)
        (aggregated, log, w) chunks
  = (aggregated, (log ++ replicate (length chunks) LogNoResult)%list, w).
Proof.
  induction 1 as [|chunk chunks Hne _ IH]; intros aggregated log w; simpl.
  - rewrite app_nil_r. reflexivity.
  - rewrite process_chunk_batch_fails by exact Hne.
    rewrite IH, <- app_assoc. reflexivity.
Qed.

(** Every chunk is lost: nothing is collected, no request reaches the
    sequential fall-back, and all that is printed is one line per chunk
    that names no request. *)
Lemma execute_batch_requests_batch_fails (requests : list (@entry Req))
    max_chunk_retries chunk_size (w : W) :
  let n_chunks := length (chunk_list requests (Z.to_nat (Z.max 1 chunk_size))) in
  execute_batch_requests response_handler batch_execute request_execute requests
    max_chunk_retries chunk_size w
  = ([], replicate n_chunks LogNoResult, w).
Proof.
  intros n_chunks. subst n_chunks. unfold execute_batch_requests.
  rewrite chunks_batch_fails; [reflexivity|].
  apply chunk_list_fuel_nonempty. lia.
Qed.

End BatchFacts.

(** C2 at three requests sent while [batch.execute] raises: the call comes
    back with no record, none of the three requests was executed one by
    one, and the only line printed is the one that says the batch returned
    no result; the requests are gone without a trace of their own. *)
Theorem execute_batch_requests_drops_failed_batch :
  execute_batch_requests collect_response batch_down single_request_ok
    three_requests 5 20 0%nat
  = ([], [LogNoResult], 0%nat).
Proof. vm_compute. reflexivity. Qed.

(** ** Further properties of the payload assembly and of the chunking *)





(** Referential integrity of the ad sets: whatever the template and the
    overrides say, the payload of an ad set carries the identifier of the
    campaign that was just created, and in CBO mode neither budget. *)
Theorem sanitize_adset_payload_campaign_id `{PyLib}
    (template overrides : value) (new_campaign_id : string) (is_cbo : bool)
    (payload : pydict) :
  sanitize_adset_payload template overrides new_campaign_id is_cbo = Ok payload ->
  payload !! "campaign_id" = Some (VStr new_campaign_id)
  /\ (is_cbo = true -> has_budget payload = false).
Proof.
  unfold sanitize_adset_payload.
  destruct (as_dict overrides) as [o|e]; [|discriminate].
  unfold mbind, result_bind.
  generalize (collect_fields ADSET_POST_FIELDS
                (fun field => String.eqb field "campaign_id" || is_budget_key field && is_cbo)
                (base_of template) o).
  intros fields Hp. injection Hp as <-. unfold default_status. split.
  - destruct is_cbo.
    + rewrite !lookup_delete_ne by discriminate.
      rewrite lookup_insert_ne by discriminate. apply lookup_insert_eq.
    + rewrite lookup_insert_ne by discriminate. apply lookup_insert_eq.
  - intros ->. unfold has_budget, has_key.
    rewrite lookup_delete_ne, lookup_delete_eq, lookup_delete_eq by discriminate.
    reflexivity.
Qed.

Lemma sanitize_adset_payload_campaign_id_witness :
  exists payload : pydict,
    @sanitize_adset_payload ref_lib
      (VDict (<["campaign_id" := VStr "source"]> (<["daily_budget" := VInt 1000]> ∅)))
      (VDict ∅) "c1" true = Ok payload
    /\ payload !! "campaign_id" = Some (VStr "c1")
    /\ has_budget payload = false.
Proof.
  destruct (@sanitize_adset_payload ref_lib
              (VDict (<["campaign_id" := VStr "source"]> (<["daily_budget" := VInt 1000]> ∅)))
              (VDict ∅) "c1" true) as [payload|e] eqn:Hpayload;
    [|vm_compute in Hpayload; discriminate Hpayload].
  destruct (@sanitize_adset_payload_campaign_id ref_lib _ _ _ _ _ Hpayload) as [Hid Hbudget].
  exists payload. split; [reflexivity|].
  split; [exact Hid | exact (Hbudget eq_refl)].
Defined.

Lemma chunk_list_fuel_concat {A} (fuel : nat) (items : list A) (chunk_size : nat) :
  (0 < chunk_size)%nat -> (length items <= fuel)%nat ->
  concat (chunk_list_fuel fuel items chunk_size) = items.
Proof.
  intros Hpos. revert items.
  induction fuel as [|fuel IH]; intros [|x items] Hlen; simpl in *; try reflexivity; [lia|].
  destruct chunk_size as [|n]; [lia|]. simpl.
  rewrite IH.
  - rewrite take_drop. reflexivity.
  - rewrite length_drop. lia.
Qed.

Lemma chunk_list_fuel_sizes {A} (fuel : nat) (items : list A) (chunk_size : nat) :
  Forall (fun c => (length c <= chunk_size)%nat) (chunk_list_fuel fuel items chunk_size).
Proof.
  revert items.
  induction fuel as [|fuel IH]; intros [|x items]; simpl; try constructor.
  - rewrite length_take. lia.
  - apply IH.
Qed.

(** The chunks of [chunk_list] are the request list cut in order: put end
    to end they give the list back, none is empty and none is longer than
    the chunk size. *)
Theorem chunk_list_partition {A} (items : list A) (chunk_size : nat) :
  (0 < chunk_size)%nat ->
  concat (chunk_list items chunk_size) = items
  /\ Forall (fun c => c <> [] /\ (length c <= chunk_size)%nat) (chunk_list items chunk_size).
Proof.
  intros Hpos. unfold chunk_list. split.
  - apply chunk_list_fuel_concat; [exact Hpos | lia].
  - apply Forall_and. split.
    + apply chunk_list_fuel_nonempty. exact Hpos.
    + apply chunk_list_fuel_sizes.
Qed.

Lemma chunk_list_partition_witness :
  concat (chunk_list [1; 2; 3; 4; 5]%nat 2) = [1; 2; 3; 4; 5]%nat
  /\ Forall (fun c => c <> [] /\ (length c <= 2)%nat) (chunk_list [1; 2; 3; 4; 5]%nat 2).
Proof. apply (chunk_list_partition [1; 2; 3; 4; 5]%nat 2). lia. Defined.

(** ** The structural sanitizer: keys and plain fields *)

Section SanitizerKeys.
Context `{PyLib}.




End SanitizerKeys.





(** ** The structural sanitizer: no key is made up *)

Section SanitizerNoNewKeys.
Context `{PyLib}.












End SanitizerNoNewKeys.

(** ** Blanks around a string *)






(** ** The structural sanitizer: amounts of money *)

Section SanitizerAmounts.
Context `{PyLib}.









End SanitizerAmounts.

(** ** The structural sanitizer: the start time *)

Section SanitizerStartTime.
Context `{PyLib}.




End SanitizerStartTime.


(** ** The request executor: sleeps and late successes *)

Section RequestExecutorSleeps.
Context {W A : Type}.
Variable api_call_function : W -> call_result A * W.




End RequestExecutorSleeps.



(** ** Payload assembly: the schema is a whitelist *)

Section PayloadSchema.
Context `{PyLib}.

Lemma collect_fields_lookup (fields : list string) (skip : string -> bool)
    (base overrides : pydict) (k : string) :
  collect_fields fields skip base overrides !! k
  = if bool_decide (k ∈ fields) && negb (skip k)
    then match field_value base overrides k with
         | VNone => None
         | normalized => Some normalized
         end
    else None.
Proof.
  unfold collect_fields.
  set (step := fun (payload : pydict) (field : string) =>
                 if skip field then payload
                 else
                   let original_value := dict_get base field in
                   let v := default original_value (overrides !! field) in
                   match normalize_input_value field v original_value with
                   | VNone => payload
                   | normalized => <[field := normalized]> payload
                   end).
  assert (Hother : forall acc f, k <> f -> step acc f !! k = acc !! k).
  { intros acc f Hne. unfold step. destruct (skip f); [reflexivity|]. cbv zeta.
    destruct (normalize_input_value f _ _);
      rewrite ?lookup_insert_ne by congruence; reflexivity. }
  assert (Hsame : forall acc, step acc k !! k
                              = if skip k then acc !! k
                                else match field_value base overrides k with
                                     | VNone => acc !! k
                                     | normalized => Some normalized
                                     end).
  { intros acc. unfold step, field_value. destruct (skip k); [reflexivity|]. cbv zeta.
    destruct (normalize_input_value k _ _); rewrite ?lookup_insert_eq; reflexivity. }
  assert (Hgen : forall acc : pydict,
            foldl step acc fields !! k
            = if bool_decide (k ∈ fields) && negb (skip k)
              then match field_value base overrides k with
                   | VNone => acc !! k
                   | normalized => Some normalized
                   end
              else acc !! k).
  { induction fields as [|f fields IH]; intros acc; [reflexivity|].
    simpl foldl. rewrite IH. clear IH.
    destruct (decide (k = f)) as [<-|Hne].
    - rewrite (bool_decide_eq_true_2 (k ∈ k :: fields))
        by (apply elem_of_cons; left; reflexivity).
      rewrite Hsame. destruct (skip k); simpl.
      + rewrite andb_false_r. reflexivity.
      + rewrite andb_true_r.
        destruct (field_value base overrides k);
          destruct (bool_decide (k ∈ fields)); reflexivity.
    - assert (Hmem : bool_decide (k ∈ f :: fields) = bool_decide (k ∈ fields)).
      { apply bool_decide_ext. rewrite elem_of_cons. tauto. }
      rewrite Hmem, Hother by exact Hne. reflexivity. }
  rewrite Hgen, lookup_empty.
  destruct (bool_decide (k ∈ fields) && negb (skip k)); [|reflexivity].
  destruct (field_value base overrides k); reflexivity.
Qed.

Lemma collect_fields_key (fields : list string) (skip : string -> bool)
    (base overrides : pydict) (k : string) (v : value) :
  collect_fields fields skip base overrides !! k = Some v ->
  k ∈ fields /\ skip k = false /\ v = field_value base overrides k.
Proof.
  rewrite collect_fields_lookup.
  destruct (bool_decide (k ∈ fields)) eqn:Hk; simpl; [|discriminate].
  apply bool_decide_eq_true_1 in Hk.
  destruct (skip k); simpl; [discriminate|].
  destruct (field_value base overrides k); intros [= <-]; auto.
Qed.

End PayloadSchema.

(** The POST schema is a whitelist: a field of the campaign payload is a
    field of [CAMPAIGN_POST_FIELDS]; outside CBO mode it is not a budget;
    and apart from [status] it holds the override when there is one, else
    the template's value, as [normalize_input_value] leaves it. *)
Theorem sanitize_campaign_payload_schema `{PyLib}
    (template : value) (overrides : pydict) (is_cbo : bool) (k : string) (v : value) :
  sanitize_campaign_payload template overrides is_cbo !! k = Some v ->
  k ∈ CAMPAIGN_POST_FIELDS
  /\ (is_cbo = false -> is_budget_key k = false)
  /\ (k <> "status" -> v = field_value (base_of template) overrides k).
Proof.
  unfold sanitize_campaign_payload, default_status.
  destruct (decide (k = "status")) as [->|Hne].
  - intros _. split; [|split; [reflexivity | congruence]].
    unfold CAMPAIGN_POST_FIELDS. rewrite !elem_of_cons. tauto.
  - rewrite lookup_insert_ne by congruence. intros Hk.
    apply collect_fields_key in Hk as (Hin & Hskip & Hv).
    split; [exact Hin|]. split; [|intros _; exact Hv].
    intros ->. rewrite andb_true_r in Hskip. exact Hskip.
Qed.

Lemma sanitize_campaign_payload_schema_witness :
  "objective" ∈ CAMPAIGN_POST_FIELDS
  /\ (false = false -> is_budget_key "objective" = false)
  /\ ("objective" <> "status" ->
      VStr "OUTCOME_SALES"
      = @field_value ref_lib
          (base_of (VDict (<["objective" := VStr "OUTCOME_TRAFFIC"]>
                             (<["id" := VStr "120"]> ∅))))
          {["objective" := VStr " OUTCOME_SALES "]} "objective").
Proof.
  apply (@sanitize_campaign_payload_schema ref_lib
           (VDict (<["objective" := VStr "OUTCOME_TRAFFIC"]> (<["id" := VStr "120"]> ∅)))
           {["objective" := VStr " OUTCOME_SALES "]} false "objective"
           (VStr "OUTCOME_SALES")).
  vm_compute. reflexivity.
Defined.
(** Referential integrity of the ads: whatever the template and the
    overrides say, the payload of an ad names the ad set and the creative
    that were just created, and it holds no field outside
    [AD_POST_FIELDS]. *)
Theorem sanitize_ad_payload_links `{PyLib}
    (template overrides : value) (new_adset_id creative_id : string) (payload : pydict) :
  sanitize_ad_payload template overrides new_adset_id creative_id = Ok payload ->
  payload !! "adset_id" = Some (VStr new_adset_id)
  /\ payload !! "creative" = Some (VDict {["creative_id" := VStr creative_id]})
  /\ forall k, is_Some (payload !! k) -> k ∈ AD_POST_FIELDS.
Proof.
  unfold sanitize_ad_payload.
  destruct (as_dict overrides) as [o|e]; [|discriminate].
  unfold mbind, result_bind. intros Hp. injection Hp as <-.
  unfold default_status. split; [|split].
  - rewrite !lookup_insert_ne by discriminate. apply lookup_insert_eq.
  - rewrite lookup_insert_ne by discriminate. apply lookup_insert_eq.
  - intros k Hk. unfold AD_POST_FIELDS. rewrite !elem_of_cons.
    destruct (decide (k = "status")) as [->|Hs]; [tauto|].
    destruct (decide (k = "creative")) as [->|Hc]; [tauto|].
    destruct (decide (k = "adset_id")) as [->|Ha]; [tauto|].
    rewrite !lookup_insert_ne in Hk by congruence.
    destruct Hk as [v Hk]. apply collect_fields_key in Hk as (Hin & _ & _).
    unfold AD_POST_FIELDS in Hin. rewrite !elem_of_cons in Hin. exact Hin.
Qed.

Lemma sanitize_ad_payload_links_witness :
  exists payload : pydict,
    @sanitize_ad_payload ref_lib
      (VDict (<["adset_id" := VStr "source"]> (<["id" := VStr "77"]> ∅)))
      (VDict {["creative" := VStr "mine"]}) "s1" "cr1" = Ok payload
    /\ payload !! "adset_id" = Some (VStr "s1")
    /\ payload !! "creative" = Some (VDict {["creative_id" := VStr "cr1"]})
    /\ payload !! "id" = None.
Proof.
  destruct (@sanitize_ad_payload ref_lib
              (VDict (<["adset_id" := VStr "source"]> (<["id" := VStr "77"]> ∅)))
              (VDict {["creative" := VStr "mine"]}) "s1" "cr1") as [payload|e] eqn:Hpayload;
    [|vm_compute in Hpayload; discriminate Hpayload].
  destruct (@sanitize_ad_payload_links ref_lib _ _ _ _ _ Hpayload) as (Ha & Hc & Hk).
  exists payload. split; [reflexivity|]. split; [exact Ha|]. split; [exact Hc|].
  destruct (payload !! "id") as [v|] eqn:Hid; [|reflexivity].
  exfalso. specialize (Hk "id" ltac:(rewrite Hid; eauto)).
  unfold AD_POST_FIELDS in Hk. rewrite !elem_of_cons, elem_of_nil in Hk.
  destruct Hk as [?|[?|[?|[?|[]]]]]; discriminate.
Defined.

(** ** From the input form to the platform: the bid amount *)

Section BidAmount.
Context `{PyLib}.



End BidAmount.


